(** * Splitwise poker leaderboard: a shallow embedding of
    [scripts/splitwise-2025.py] and the properties of its
    filter / transform / aggregate pipeline.

    Modelling conventions.
    - A JSON value handed over by [resp.json()] is a [pyval]; a Python
      [dict] is a [gmap string pyval], so [d.get(k)] is a lookup.
    - A Python exception is a [Raise e] in the [result] monad; sequencing
      is the monad's bind, so the first raise ends the whole call, as it
      does in a script that has no [try].
    - A Python [str] is a [string] of bytes; [lower] and [strip] act on
      the ASCII range.
    - Amounts are modelled twice. The pipeline is first written with
      amounts as exact rationals ([Qc]), [float] of a number being its value:
      the model of the properties about which records fail or are skipped,
      names, dates, and the lines, order and ranks of the tables. What the
      script computes with is a binary64: [Module Binary64] writes share
      conversion, the extractor and the yearly table over the primitive
      type [float], with [OverflowError], infinities, NaN and rounding, and
      the properties of the arithmetic itself are stated on it.
    - A [DataFrame] is the list of its rows, in index order, with the
      columns [parse_expenses] writes. The frame without columns that
      [pd.DataFrame([])] builds is not such a list: [main] returns before
      handing it to [compute_leaderboards].
    - [sort_values] is a stable merge sort: lines with equal keys keep the
      order of the grouped frame. The order of such lines is the only thing
      a different sorting algorithm could change. *)

From Stdlib Require Import Ascii QArith Qcanon Floats.
From stdpp Require Import base option list strings gmap sorting pretty numbers.

#[local] Set Warnings "-register-all,-inexact-float".
Close Scope Qc_scope.
Close Scope Q_scope.

(** ** Python values, truthiness, exceptions *)

Inductive exn : Set :=
| KeyError | AttributeError | TypeError | ValueError | OverflowError
| ParserError.

Inductive result (A : Type) : Type :=
| Ok (a : A)
| Raise (e : exn).
Arguments Ok {A} a.
Arguments Raise {A} e.

(** Sequencing: a raise in [m] is the outcome of the whole. *)
Definition bind {A B : Type} (m : result A) (k : A → result B) : result B :=
  match m with Ok a => k a | Raise e => Raise e end.

Notation "x <- m ;; k" := (bind m (λ x, k))
  (at level 100, m at next level, right associativity,
   format "'[v' x  <-  m  ;; '/' k ']'").

Inductive pyval : Type :=
| PNone
| PBool (b : bool)
| PInt (z : Z)
| PFloat (q : Qc)
| PStr (s : string)
| PList (l : list pyval)
| PDict (d : gmap string pyval).

Abbreviation dict := (gmap string pyval).

(** [bool(v)] *)
Definition truthy (v : pyval) : bool :=
  match v with
  | PNone => false
  | PBool b => b
  | PInt z => negb (Z.eqb z 0)
  | PFloat q => negb (bool_decide (q = 0%Qc))
  | PStr s => negb (bool_decide (s = ""))
  | PList l => match l with [] => false | _ => true end
  | PDict d => negb (bool_decide (d = ∅))
  end.

(** [a or b] *)
Definition py_or (a b : pyval) : pyval := if truthy a then a else b.

(** [v is True] *)
Definition is_True (v : pyval) : bool :=
  match v with PBool true => true | _ => false end.

(** [d.get(k)], [d.get(k, dflt)] and [d[k]] *)
Definition dict_get (d : dict) (k : string) : pyval := default PNone (d !! k).
Definition dict_get_default (d : dict) (k : string) (dflt : pyval) : pyval :=
  default dflt (d !! k).
Definition dict_index (d : dict) (k : string) : result pyval :=
  match d !! k with Some v => Ok v | None => Raise KeyError end.

(** [v.get] exists on a dict only. *)
Definition as_dict (v : pyval) : result dict :=
  match v with PDict d => Ok d | _ => Raise AttributeError end.

(** [for u in v]: the elements a [for] loop visits. *)
Definition py_iter (v : pyval) : result (list pyval) :=
  match v with
  | PList l => Ok l
  | PStr s => Ok ((λ c, PStr (String c "")) <$> String.list_ascii_of_string s)
  | PDict d => Ok (PStr <$> (map_to_list d).*1)
  | _ => Raise TypeError
  end.

(** ** Strings: [str.lower], [str.strip], [in] *)

Definition lower_char (c : ascii) : ascii :=
  let n := nat_of_ascii c in
  if (65 <=? n)%nat && (n <=? 90)%nat then ascii_of_nat (n + 32) else c.

Fixpoint lower (s : string) : string :=
  match s with
  | EmptyString => EmptyString
  | String c s' => String (lower_char c) (lower s')
  end.

(** The ASCII characters [str.isspace] accepts. *)
Definition py_isspace (c : ascii) : bool :=
  let n := nat_of_ascii c in
  ((9 <=? n)%nat && (n <=? 13)%nat) || ((28 <=? n)%nat && (n <=? 32)%nat).

Fixpoint lstrip (s : string) : string :=
  match s with
  | EmptyString => EmptyString
  | String c s' => if py_isspace c then lstrip s' else s
  end.

Fixpoint rstrip (s : string) : string :=
  match s with
  | EmptyString => EmptyString
  | String c s' =>
      match rstrip s' with
      | EmptyString => if py_isspace c then EmptyString else String c EmptyString
      | r => String c r
      end
  end.

Definition strip (s : string) : string := rstrip (lstrip s).

(** [v.strip()]: a method of [str] only. *)
Definition str_strip (v : pyval) : result string :=
  match v with PStr s => Ok (strip s) | _ => Raise AttributeError end.

Fixpoint startswith (p s : string) : bool :=
  match p, s with
  | EmptyString, _ => true
  | String a p', String b s' => bool_decide (a = b) && startswith p' s'
  | String _ _, EmptyString => false
  end.

(** [p in s] on strings: [p] occurs in [s] at some offset. *)
Fixpoint str_in (p s : string) : bool :=
  startswith p s ||
  match s with
  | EmptyString => false
  | String _ s' => str_in p s'
  end.

(** ** Configuration constants of the script *)

Definition TARGET_YEAR : Z := 2025.

Definition EXCLUDE_DESCRIPTION_KEYWORDS : list string :=
  [ "settle all balances"; "poker mat"; "SNP Chairs"; "Payment";
    "Table and chairs"; "Poker table" ].

(** ** Rows and dates *)

(** The calendar fields of a [datetime] / [pd.Timestamp] the script reads. *)
Record datetime : Set := { year : Z; month : Z; day : Z }.

(** A row of the frame [parse_expenses] builds. *)
Record row : Type := {
  date : datetime;
  player : string;
  winnings : Qc;
  expense : pyval
}.

(** ** What the script calls and does not define

    [dateutil.parser.parse] on a string ([None]: it raises [ParserError]),
    the builtin [float] on a string ([None]: it raises [ValueError]), and
    [str] on a float, list or dict. *)
Class Externals : Type := {
  dateparser_parse : string → option datetime;
  float_of_str : string → option Qc;
  repr : pyval → string
}.

(** A reference implementation of the externals, used where a statement
    needs a concrete parser: ISO dates [YYYY-MM-DD...] as the ledger sends
    them, and plain decimal literals. *)

Definition digit (c : ascii) : option Z := Z.of_nat <$> Ascii.is_nat c.

Fixpoint digits_value (acc : Z) (cs : list ascii) : option Z :=
  match cs with
  | [] => Some acc
  | c :: cs' => d ← digit c; digits_value (10 * acc + d)%Z cs'
  end.

Definition iso_date (s : string) : option datetime :=
  match s with
  | String y1 (String y2 (String y3 (String y4 (String "-"
      (String m1 (String m2 (String "-" (String d1 (String d2 _))))))))) =>
      y ← digits_value 0 [y1; y2; y3; y4];
      m ← digits_value 0 [m1; m2];
      d ← digits_value 0 [d1; d2];
      if bool_decide (1 ≤ m ≤ 12 ∧ 1 ≤ d ≤ 31)%Z
      then Some {| year := y; month := m; day := d |}
      else None
  | _ => None
  end.

Fixpoint decimal_digits (s : string) (num : Z) (den : positive)
    (dot any : bool) : option Q :=
  match s with
  | EmptyString => if any then Some (num # den)%Q else None
  | String c s' =>
      if bool_decide (c = "."%char)
      then (if dot then None else decimal_digits s' num den true any)
      else match digit c with
           | Some d =>
               decimal_digits s' (10 * num + d)%Z
                 (if dot then (10 * den)%positive else den) dot true
           | None => None
           end
  end.

Definition decimal (s : string) : option Qc :=
  match s with
  | String "-" s' => (λ q, Q2Qc (- q)%Q) <$> decimal_digits s' 0 1 false false
  | _ => Q2Qc <$> decimal_digits s 0 1 false false
  end.

Definition reference_externals : Externals :=
  {| dateparser_parse := iso_date;
     float_of_str := decimal;
     repr := λ _, "<object>" |}.

(** ** FILTERS *)

(** The keyword loop of [should_exclude_expense]: returns at the first
    keyword whose lower-cased form occurs in [desc]. *)
Fixpoint keyword_loop (kws : list string) (desc : string) : bool :=
  match kws with
  | [] => false
  | kw :: kws' => if str_in (lower kw) desc then true else keyword_loop kws' desc
  end.

(** [(exp.get("description") or "").strip().lower()] *)
Definition description_key (exp : dict) : result string :=
  s <- str_strip (py_or (dict_get exp "description") (PStr "")) ;;
  Ok (lower s).

Definition should_exclude_expense (exp : dict) : result bool :=
  desc <- description_key exp ;;
  if keyword_loop EXCLUDE_DESCRIPTION_KEYWORDS desc then Ok true
  else if is_True (dict_get exp "payment") then Ok true
  else Ok false.

(** ** TRANSFORM *)

Section Transform.
Context `{Externals}.

(** [str(v)] *)
Definition py_str (v : pyval) : string :=
  match v with
  | PStr s => s
  | PNone => "None"
  | PBool true => "True"
  | PBool false => "False"
  | PInt z => pretty z
  | _ => repr v
  end.

(** [float(v)] *)
Definition py_float (v : pyval) : result Qc :=
  match v with
  | PInt z => Ok (Qc_of_Z z)
  | PBool b => Ok (if b then 1%Qc else 0%Qc)
  | PFloat q => Ok q
  | PStr s =>
      match float_of_str s with Some q => Ok q | None => Raise ValueError end
  | PNone | PList _ | PDict _ => Raise TypeError
  end.

(** [dateparser.parse(v)] *)
Definition parse_date (v : pyval) : result datetime :=
  match v with
  | PStr s =>
      match dateparser_parse s with Some dt => Ok dt | None => Raise ParserError end
  | _ => Raise TypeError
  end.

(** [float(u.get(k, 0) or 0)] *)
Definition share (u : dict) (k : string) : result Qc :=
  py_float (py_or (dict_get_default u k (PInt 0)) (PInt 0)).

(** Lines 122-134: the value bound to [name] for one participation. *)
Definition resolve_name (u : dict) : result pyval :=
  user_obj <- as_dict (py_or (dict_get_default u "user" (PDict ∅)) (PDict ∅)) ;;
  first <- str_strip (py_or (dict_get user_obj "first_name") (PStr "")) ;;
  last <- str_strip (py_or (dict_get user_obj "last_name") (PStr "")) ;;
  let full := strip (first +:+ " " +:+ last) in
  Ok (if truthy (PStr full) then PStr full
        else py_or (py_or (dict_get user_obj "name") (dict_get user_obj "email"))
                   (PStr "Unknown")).

(** The column [player] of a row: [str(name).strip()]. *)
Definition display_name (name : pyval) : string := strip (py_str name).

(** The body of the inner loop: the rows one participation appends
    ([u.get] raises on a [u] that is not a dict). *)
Definition user_rows (dt : datetime) (desc : pyval) (u : pyval) : result (list row) :=
  d <- as_dict u ;;
  name <- resolve_name d ;;
  paid <- share d "paid_share" ;;
  owed <- share d "owed_share" ;;
  let net := (paid - owed)%Qc in
  if bool_decide (net ≠ 0%Qc)
  then Ok [ {| date := dt; player := display_name name;
                 winnings := net; expense := desc |} ]
  else Ok [].

Fixpoint users_loop (dt : datetime) (desc : pyval) (us : list pyval)
    : result (list row) :=
  match us with
  | [] => Ok []
  | u :: us' =>
      r <- user_rows dt desc u ;;
      rs <- users_loop dt desc us' ;;
      Ok (r ++ rs)
  end.

(** The body of the outer loop: the rows one expense appends. *)
Definition expense_rows (exp : dict) : result (list row) :=
  excluded <- should_exclude_expense exp ;;
  if excluded then Ok []
  else
    d <- dict_index exp "date" ;;
    dt <- parse_date d ;;
    if bool_decide (year dt ≠ TARGET_YEAR) then Ok []
    else
      let desc := dict_get_default exp "description" (PStr "") in
      us <- py_iter (dict_get_default exp "users" (PList [])) ;;
      users_loop dt desc us.

Fixpoint parse_expenses (expenses : list dict) : result (list row) :=
  match expenses with
  | [] => Ok []
  | exp :: rest =>
      r <- expense_rows exp ;;
      rs <- parse_expenses rest ;;
      Ok (r ++ rs)
  end.

End Transform.

(** ** AGGREGATION *)

(** [strftime("%b")] of the month number. *)
Definition month_abbr (m : Z) : string :=
  match m with
  | 1 => "Jan" | 2 => "Feb" | 3 => "Mar" | 4 => "Apr"
  | 5 => "May" | 6 => "Jun" | 7 => "Jul" | 8 => "Aug"
  | 9 => "Sep" | 10 => "Oct" | 11 => "Nov" | 12 => "Dec"
  | _ => ""
  end%Z.

(** A row of the frame [add_week_keys] returns: the four columns of the
    input row and the three added ones. *)
Record keyed_row : Type := {
  base : row;
  month_col : string;
  week_of_month : Z;
  week_label : string
}.

(** The three columns [add_week_keys] computes for one row. *)
Definition week_keys (r : row) : keyed_row :=
  let m := month_abbr (month (date r)) in
  let w := ((day (date r) - 1) `div` 7 + 1)%Z in
  {| base := r; month_col := m; week_of_month := w;
     week_label := m +:+ " W" +:+ pretty w |}.

Definition add_week_keys (df : list row) : list keyed_row := week_keys <$> df.

Definition sumQc (l : list Qc) : Qc := foldr Qcplus 0%Qc l.

(** [df.groupby(key, as_index=False)["winnings"].sum()]: one line per
    distinct key, keys in ascending order ([sort=True] is the default), each
    with the sum of its rows' winnings. *)
Definition groupby_sum {K : Type} `{EqDecision K}
    (le : relation K) `{!RelDecision le}
    (key : keyed_row → K) (df : list keyed_row) : list (K * Qc) :=
  (λ k, (k, sumQc ((winnings ∘ base) <$> filter (λ r, key r = k) df)))
    <$> merge_sort le (remove_dups (key <$> df)).

(** Tuple order of the two grouping columns [(week_label, player)]. *)
Definition pair_le (a b : string * string) : Prop :=
  (a.1 ≠ b.1 ∧ String.le a.1 b.1) ∨ (a.1 = b.1 ∧ String.le a.2 b.2).

#[global] Instance pair_le_dec : RelDecision pair_le.
Proof. intros a b. unfold pair_le. apply _. Defined.

(** [sort_values("winnings", ascending=False)] *)
Definition winnings_desc (a b : string * Qc) : Prop := (b.2 ≤ a.2)%Qc.

#[global] Instance winnings_desc_dec : RelDecision winnings_desc.
Proof. intros a b. unfold winnings_desc. apply _. Defined.

(** [sort_values(["week_label", "winnings"], ascending=[True, False])] *)
Definition weekly_order (a b : string * string * Qc) : Prop :=
  (a.1.1 ≠ b.1.1 ∧ String.le a.1.1 b.1.1) ∨ (a.1.1 = b.1.1 ∧ (b.2 ≤ a.2)%Qc).

#[global] Instance weekly_order_dec : RelDecision weekly_order.
Proof. intros a b. unfold weekly_order. apply _. Defined.

Record yearly_row : Type := {
  rank : nat;
  y_player : string;
  total_winnings : Qc
}.

Record weekly_row : Type := {
  w_week_label : string;
  week_rank : nat;
  w_player : string;
  w_winnings : Qc
}.

Record winner_row : Type := {
  ww_week_label : string;
  winner : string;
  top_winnings : Qc
}.

(** The frame [yearly] before the rank column is added. *)
Definition yearly_sorted (df : list keyed_row) : list (string * Qc) :=
  merge_sort winnings_desc (groupby_sum String.le (player ∘ base) df).

(** [yearly["rank"] = range(1, len(yearly) + 1)] *)
Definition yearly_leaderboard (df : list keyed_row) : list yearly_row :=
  let yearly := yearly_sorted df in
  zip_with (λ n pw, {| rank := n; y_player := pw.1; total_winnings := pw.2 |})
    (seq 1 (length yearly)) yearly.

(** The frame [weekly] before the rank column is added. *)
Definition weekly_sorted (df : list keyed_row) : list (string * string * Qc) :=
  merge_sort weekly_order
    (groupby_sum pair_le (λ r, (week_label r, player (base r))) df).

(** The lines of [weekly] that carry the label [w], in frame order. *)
Definition week_group (w : string) (weekly : list (string * string * Qc))
    : list (string * string * Qc) :=
  filter (λ r, r.1.1 = w) weekly.

(** [rank(method="first", ascending=False)] of the value [x] found at
    position [i] of its group: one more than the number of larger values in
    the group plus the number of equal values that come before it. *)
Definition rank_first_desc (grp : list Qc) (i : nat) (x : Qc) : nat :=
  S (length (filter (λ y, (x < y)%Qc) grp)
     + length (filter (λ y, y = x) (take i grp))).

(** [weekly.groupby("week_label")["winnings"].rank(...).astype(int)] *)
Definition week_ranks (weekly : list (string * string * Qc)) : list nat :=
  imap (λ i r,
          rank_first_desc (snd <$> week_group r.1.1 weekly)
            (length (week_group r.1.1 (take i weekly))) r.2)
       weekly.

(** A line of [weekly] with its rank column. *)
Definition weekly_line (n : nat) (r : string * string * Qc) : weekly_row :=
  {| w_week_label := r.1.1; week_rank := n; w_player := r.1.2;
     w_winnings := r.2 |}.

Definition weekly_totals (df : list keyed_row) : list weekly_row :=
  let weekly := weekly_sorted df in
  zip_with weekly_line (week_ranks weekly) weekly.

(** [weekly.groupby("week_label", as_index=False).first()], renamed. *)
Definition weekly_winners (df : list keyed_row) : list winner_row :=
  let weekly := weekly_sorted df in
  omap (λ w, (λ r, {| ww_week_label := w; winner := r.1.2;
                      top_winnings := r.2 |}) <$> head (week_group w weekly))
       (merge_sort String.le (remove_dups ((λ r, r.1.1) <$> weekly))).

Definition compute_leaderboards (df : list row)
    : list yearly_row * list winner_row * list weekly_row :=
  let df := add_week_keys df in
  (yearly_leaderboard df, weekly_winners df, weekly_totals df).

(** [main] without its input and output: the frame is handed to
    [compute_leaderboards] only when it has rows ([df.empty] returns early,
    which also keeps the column-less frame [pd.DataFrame([])] away from
    [add_week_keys]). *)
Definition main_tables `{Externals} (expenses : list dict)
    : result (option (list yearly_row * list winner_row * list weekly_row
                      * list row)) :=
  df <- parse_expenses expenses ;;
  match df with
  | [] => Ok None
  | _ => Ok (Some (compute_leaderboards df, df))
  end.

(** ** The arithmetic as the machine does it: binary64

    A Python [float] is an IEEE 754 binary64: here the primitive type
    [float], whose operations the library specifies bit for bit
    ([SpecFloat]). The definitions of this module follow the same source
    lines as the ones above, with the amounts in binary64: [float(...)] of
    a share rounds, overflows and reads ["inf"] and ["nan"]; [paid - owed]
    and the sums of [groupby(...).sum()] round; [net != 0] is true of NaN. *)

Module Binary64.

(** [float(z)] of an [int]: the nearest binary64, ties to even;
    [OverflowError] when that is beyond the largest finite one. *)
Definition float_of_int (z : Z) : result float :=
  let f := SF2Prim (binary_normalize prec emax z 0 false) in
  if is_infinity f then Raise OverflowError else Ok f.

(** The binary64 nearest to a rational, ties to even, and an infinity
    beyond the range: what the JSON decoder and [float(str)] make of the
    value of a decimal literal. *)
Definition nearest (q : Qc) : float :=
  SF2Prim
    match Qnum q with
    | Z0 => S754_zero false
    | Zpos n =>
        SFdiv prec emax (S754_finite false n 0) (S754_finite false (Qden q) 0)
    | Zneg n =>
        SFdiv prec emax (S754_finite true n 0) (S754_finite false (Qden q) 0)
    end.

(** The spellings [float(str)] accepts that are no decimal literals, in
    lower case. *)
Definition special (s : string) : option float :=
  if bool_decide (s ∈ ["inf"; "+inf"; "infinity"; "+infinity"]) then Some infinity
  else if bool_decide (s ∈ ["-inf"; "-infinity"]) then Some neg_infinity
  else if bool_decide (s ∈ ["nan"; "+nan"; "-nan"]) then Some nan
  else None.

(** [bool(v)] and [a or b], a JSON number with a fraction being the
    binary64 the decoder made of it. *)
Definition truthy (v : pyval) : bool :=
  match v with
  | PFloat q => negb (nearest q =? 0)%float
  | _ => truthy v (* as above *)
  end.

Definition py_or (a b : pyval) : pyval := if truthy a then a else b.

(** A row of the frame [parse_expenses] builds. *)
Record row : Type := {
  date : datetime;
  player : string;
  winnings : float;
  expense : pyval
}.

Section Transform.
Context `{Externals}.

(** [float(s)] of a [str]: white space around it and case are ignored. *)
Definition float_of_string (s : string) : option float :=
  match special (lower (strip s)) with
  | Some f => Some f
  | None => nearest <$> float_of_str s
  end.

(** [float(v)] *)
Definition py_float (v : pyval) : result float :=
  match v with
  | PInt z => float_of_int z
  | PBool b => Ok (if b then 1%float else 0%float)
  | PFloat q => Ok (nearest q)
  | PStr s =>
      match float_of_string s with Some f => Ok f | None => Raise ValueError end
  | PNone | PList _ | PDict _ => Raise TypeError
  end.

(** [float(u.get(k, 0) or 0)] *)
Definition share (u : dict) (k : string) : result float :=
  py_float (py_or (dict_get_default u k (PInt 0)) (PInt 0)).

(** The body of the inner loop. [net != 0] is false of the two zeros only:
    it is true of NaN. *)
Definition user_rows (dt : datetime) (desc : pyval) (u : pyval) : result (list row) :=
  d <- as_dict u ;;
  name <- resolve_name d ;;
  paid <- share d "paid_share" ;;
  owed <- share d "owed_share" ;;
  let net := (paid - owed)%float in
  if negb (net =? 0)%float
  then Ok [ {| date := dt; player := display_name name;
                 winnings := net; expense := desc |} ]
  else Ok [].

Fixpoint users_loop (dt : datetime) (desc : pyval) (us : list pyval)
    : result (list row) :=
  match us with
  | [] => Ok []
  | u :: us' =>
      r <- user_rows dt desc u ;;
      rs <- users_loop dt desc us' ;;
      Ok (r ++ rs)
  end.

Definition expense_rows (exp : dict) : result (list row) :=
  excluded <- should_exclude_expense exp ;;
  if excluded then Ok []
  else
    d <- dict_index exp "date" ;;
    dt <- parse_date d ;;
    if bool_decide (year dt ≠ TARGET_YEAR) then Ok []
    else
      let desc := dict_get_default exp "description" (PStr "") in
      us <- py_iter (dict_get_default exp "users" (PList [])) ;;
      users_loop dt desc us.

Fixpoint parse_expenses (expenses : list dict) : result (list row) :=
  match expenses with
  | [] => Ok []
  | exp :: rest =>
      r <- expense_rows exp ;;
      rs <- parse_expenses rest ;;
      Ok (r ++ rs)
  end.

(** The amount a share field stands for, read off the value in the record:
    0.0 when the field is absent, null, false, 0, a number that reads as a
    zero, the empty string, or an empty list or dict; 1.0 for true; the
    binary64 nearest to an integer, when that is finite; the binary64 of a
    JSON number; what [float] reads in a string. [None] when the field is
    an integer beyond the binary64 range, a string [float] rejects, or a
    non-empty list or dict. *)
Definition share_value (u : dict) (k : string) : option float :=
  match u !! k with
  | None | Some PNone => Some 0%float
  | Some (PBool b) => Some (if b then 1%float else 0%float)
  | Some (PInt z) =>
      let f := SF2Prim (binary_normalize prec emax z 0 false) in
      if is_infinity f then None else Some f
  | Some (PFloat q) =>
      Some (if (nearest q =? 0)%float then 0%float else nearest q)
  | Some (PStr s) =>
      if bool_decide (s = "") then Some 0%float else float_of_string s
  | Some (PList l) => match l with [] => Some 0%float | _ => None end
  | Some (PDict d) => if bool_decide (d = ∅) then Some 0%float else None
  end.

End Transform.

(** One step of [group_sum], the loop pandas runs for [sum] on a float
    column: a NaN entry is skipped; any other is added with Kahan's
    compensation, which is reset when an infinity has made it NaN. On one
    or two entries the result is the plain [0.0 + a + b]. *)
Definition kahan_add (acc : float * float) (val : float) : float * float :=
  if is_nan val then acc
  else
    let y := (val - acc.2)%float in
    let t := (acc.1 + y)%float in
    let c := (t - acc.1 - y)%float in
    (t, if is_nan c then 0%float else c).

Definition group_sum (vals : list float) : float :=
  (foldl kahan_add (0%float, 0%float) vals).1.

(** The total of a player over the frame, summed in row order. *)
Definition yearly_total (df : list row) (p : string) : float :=
  group_sum (winnings <$> filter (λ r, player r = p) df).

(** [df.groupby("player", as_index=False)["winnings"].sum()] *)
Definition groupby_sum (df : list row) : list (string * float) :=
  (λ p, (p, group_sum (winnings <$> filter (λ r, player r = p) df)))
    <$> merge_sort String.le (remove_dups (player <$> df)).

(** [sort_values("winnings", ascending=False)]: larger first, NaN last. *)
Definition winnings_desc (a b : string * float) : Prop :=
  is_nan b.2 = true ∨ (is_nan a.2 = false ∧ (b.2 <=? a.2)%float = true).

#[global] Instance winnings_desc_dec : RelDecision winnings_desc.
Proof. intros a b. unfold winnings_desc. apply _. Defined.

Record yearly_row : Type := {
  rank : nat;
  y_player : string;
  total_winnings : float
}.

(** The frame [yearly] of [compute_leaderboards] before the rank column is
    added; it reads the columns [player] and [winnings] only. *)
Definition yearly_sorted (df : list row) : list (string * float) :=
  merge_sort winnings_desc (groupby_sum df).

(** [yearly["rank"] = range(1, len(yearly) + 1)] *)
Definition yearly_leaderboard (df : list row) : list yearly_row :=
  let yearly := yearly_sorted df in
  zip_with (λ n pw, {| rank := n; y_player := pw.1; total_winnings := pw.2 |})
    (seq 1 (length yearly)) yearly.

(** The number a finite binary64 is (0 for an infinity and for NaN). *)
Definition rational (f : float) : Qc :=
  match Prim2SF f with
  | S754_finite s m e => Q2Qc (inject_Z (cond_Zopp s (Z.pos m)) * 2 ^ e)%Q
  | _ => 0%Qc
  end.

(** The left-to-right binary64 sum of a column. *)
Definition running_sum (vals : list float) : float :=
  foldl PrimFloat.add 0%float vals.

(** The classes of the bit-level values: a zero of either sign; a zero
    or a finite number. *)
Definition is_zero_sf (x : spec_float) : bool :=
  match x with S754_zero _ => true | _ => false end.

Definition finite_sf (x : spec_float) : bool :=
  match x with S754_zero _ | S754_finite _ _ _ => true | _ => false end.

End Binary64.

(** *** The scenario of the specification, and variations, as data *)

Definition participant_dict (first last : string) (paid owed : pyval) : dict :=
  <["user" := PDict (<["first_name" := PStr first]>
                     (<["last_name" := PStr last]> ∅))]>
  (<["paid_share" := paid]> (<["owed_share" := owed]> ∅)).

Definition participant (first last paid owed : string) : pyval :=
  PDict (participant_dict first last (PStr paid) (PStr owed)).

Definition poker_night : dict :=
  <["description" := PStr "Poker Night"]>
  (<["date" := PStr "2025-03-10T20:00:00Z"]>
  (<["users" := PList [participant "A" "" "100.0" "25.0";
                       participant "B" "" "0.0" "75.0"]]> ∅)).

Definition mar10 : datetime := {| year := 2025; month := 3; day := 10 |}.

Definition poker_night_rows : list row :=
  [ {| date := mar10; player := "A"; winnings := Qc_of_Z 75;
       expense := PStr "Poker Night" |};
    {| date := mar10; player := "B"; winnings := Qc_of_Z (-75);
       expense := PStr "Poker Night" |} ].

(** The same expense with a date no parser reads. *)
Definition undated_night : dict := <["date" := PStr "not a date"]> poker_night.

(** The same expense with a number where the description should be. *)
Definition numbered_night : dict := <["description" := PInt 5]> poker_night.

(** The same expense carrying [payment: 1]. *)
Definition paid_night : dict := <["payment" := PInt 1]> poker_night.

(** A participation whose only name field is a blank account name. *)
Definition blank_name_user : dict :=
  <["user" := PDict (<["name" := PStr "   "]>
                     (<["email" := PStr "bob@example.com"]> ∅))]>
  (<["paid_share" := PStr "10.0"]> (<["owed_share" := PStr "0.0"]> ∅)).

(** A participation whose first name is a number. *)
Definition numbered_name_user : dict :=
  <["user" := PDict (<["first_name" := PInt 5]> ∅)]>
  (<["paid_share" := PStr "10.0"]> (<["owed_share" := PStr "0.0"]> ∅)).

(** A participation that gives no [paid_share]. *)
Definition no_paid_share_user : dict :=
  <["user" := PDict (<["first_name" := PStr "A"]> ∅)]>
  (<["owed_share" := PInt 25]> ∅).


(** The rows of the scenario with binary64 amounts. *)
Definition poker_night_amounts : list Binary64.row :=
  [ {| Binary64.date := mar10; Binary64.player := "A";
       Binary64.winnings := 75%float; Binary64.expense := PStr "Poker Night" |};
    {| Binary64.date := mar10; Binary64.player := "B";
       Binary64.winnings := (-75)%float;
       Binary64.expense := PStr "Poker Night" |} ].

(** A participation whose paid share is the string ["0.1"] and whose owed
    share is the JSON number 0.25. *)
Definition decimal_shares_user : dict :=
  participant_dict "A" "" (PStr "0.1") (PFloat (Q2Qc (1 # 4))).

(** A participation whose shares are both the string ["inf"]. *)
Definition infinite_shares_user : dict :=
  participant_dict "A" "" (PStr "inf") (PStr "inf").

(** A participation whose shares are integers one apart, beyond 2^53. *)
Definition large_shares_user : dict :=
  participant_dict "A" "" (PInt 9007199254740993) (PInt 9007199254740992).

(** A participation whose paid share is an integer beyond the binary64
    range. *)
Definition huge_share_user : dict :=
  participant_dict "A" "" (PInt (10 ^ 400)) (PStr "25.0").

Definition amount_row (p : string) (w : float) : Binary64.row :=
  {| Binary64.date := mar10; Binary64.player := p; Binary64.winnings := w;
     Binary64.expense := PStr "Poker Night" |}.


(** Rows in which every sum is exact. *)
Definition exact_rows : list Binary64.row :=
  [ amount_row "A" 75%float; amount_row "B" (-75)%float;
    amount_row "A" 12.5%float ].

(** * Vocabulary of the statements

    What the properties below say about a record is phrased with these
    readings of its fields. *)

(** The text read from a field through [(d.get(k) or "")]: the value when
    it is a string, the empty string when the field is absent, null or any
    other falsy value. *)
Definition field_text (d : dict) (k : string) : string :=
  match d !! k with
  | Some (PStr s) => s
  | _ => ""
  end.

(** The field is absent, falsy, or a string. *)
Definition field_usable (d : dict) (k : string) : Prop :=
  match d !! k with
  | None => True
  | Some v => truthy v = false ∨ ∃ s, v = PStr s
  end.

Definition description_text (exp : dict) : string := field_text exp "description".
Definition description_usable (exp : dict) : Prop := field_usable exp "description".

(** Rule 1 in the words of the specification: some configured keyword,
    lower-cased, is a substring of the trimmed, lower-cased description. *)
Definition keyword_match (text : string) : Prop :=
  ∃ kw, kw ∈ EXCLUDE_DESCRIPTION_KEYWORDS ∧
    ∃ pre post, lower (strip text) = pre +:+ lower kw +:+ post.

(** Rule 2: the record carries [payment: true]. *)
Definition flagged_payment (exp : dict) : Prop :=
  exp !! "payment" = Some (PBool true).

Section Vocabulary.
Context `{Externals}.

(** The object [u.get("user", {}) or {}] when it is a dict. *)
Definition user_object (u : dict) : dict :=
  match u !! "user" with
  | Some (PDict o) => o
  | _ => ∅
  end.

(** The field [user] is absent, falsy, or a dict. *)
Definition user_usable (u : dict) : Prop :=
  match u !! "user" with
  | None => True
  | Some v => truthy v = false ∨ ∃ o, v = PDict o
  end.

(** The name chain the code walks, on the user object [o]. *)
Definition name_chain (o : dict) : string :=
  let full :=
    strip (strip (field_text o "first_name") +:+ " "
           +:+ strip (field_text o "last_name")) in
  if bool_decide (full = "") then
    if truthy (dict_get o "name") then strip (py_str (dict_get o "name"))
    else if truthy (dict_get o "email") then strip (py_str (dict_get o "email"))
    else "Unknown"
  else full.

(** A fallback field as text: converted and trimmed when it is truthy,
    empty when it is absent or falsy. *)
Definition fallback_text (o : dict) (k : string) : string :=
  if truthy (dict_get o k) then strip (py_str (dict_get o k)) else "".

(** A fallback field that is present is not blank. *)
Definition fallback_not_blank (o : dict) (k : string) : Prop :=
  truthy (dict_get o k) = true → fallback_text o k ≠ "".

(** The chain in the words of the specification: the first of full name,
    account name and email that is not empty, else "Unknown". *)
Definition spec_display_name (o : dict) : string :=
  let full :=
    strip (strip (field_text o "first_name") +:+ " "
           +:+ strip (field_text o "last_name")) in
  if bool_decide (full ≠ "") then full
  else if bool_decide (fallback_text o "name" ≠ "") then fallback_text o "name"
  else if bool_decide (fallback_text o "email" ≠ "") then fallback_text o "email"
  else "Unknown".

End Vocabulary.

(** The total of a player over the frame, and the players whose total is
    not zero. *)
Definition yearly_total (df : list row) (p : string) : Qc :=
  sumQc (winnings <$> filter (λ r, player r = p) df).


(** * Properties *)

(** ** Strings *)

Lemma startswith_spec (p s : string) :
  startswith p s = true ↔ ∃ post, s = p +:+ post.
Proof.
  revert s. induction p as [|a p IH]; intros s; simpl.
  - split; [intros _; by exists s | done].
  - destruct s as [|b s].
    + split; [done | intros [post Hpost]; discriminate Hpost].
    + rewrite andb_true_iff, bool_decide_eq_true, IH. split.
      * intros [-> [post ->]]. by exists post.
      * intros [post Hpost]. injection Hpost as -> ->. eauto.
Qed.

(** [p in s] holds exactly when [s] is some prefix, then [p], then some
    suffix. *)
Lemma str_in_spec (p s : string) :
  str_in p s = true ↔ ∃ pre post, s = pre +:+ p +:+ post.
Proof.
  induction s as [|c s IH]; simpl; rewrite orb_true_iff, startswith_spec.
  - split.
    + intros [[post ->]|?]; [by exists "", post | done].
    + intros (pre & post & Hs). left. exists post.
      destruct pre; [done | discriminate Hs].
  - rewrite IH. split.
    + intros [[post ->]|(pre & post & ->)].
      * by exists "", post.
      * by exists (String c pre), post.
    + intros (pre & post & Hs). destruct pre as [|c' pre].
      * left. by exists post.
      * right. injection Hs as -> ->. by exists pre, post.
Qed.

Lemma keyword_loop_spec (kws : list string) (desc : string) :
  keyword_loop kws desc = true ↔
  ∃ kw, kw ∈ kws ∧ str_in (lower kw) desc = true.
Proof.
  induction kws as [|kw kws IH]; simpl.
  - split; [done | intros (kw & Hin & _); by apply elem_of_nil in Hin].
  - destruct (str_in (lower kw) desc) eqn:Hkw.
    + split; [intros _; exists kw; split; [left | done] | done].
    + rewrite IH. split.
      * intros (kw' & Hin & Hm). exists kw'. split; [by right | done].
      * intros (kw' & Hin & Hm). apply elem_of_cons in Hin as [->|Hin].
        -- congruence.
        -- eauto.
Qed.

(** ** Exclusion filter *)

Lemma text_field_strip (d : dict) (k : string) :
  field_usable d k →
  str_strip (py_or (dict_get d k) (PStr "")) = Ok (strip (field_text d k)).
Proof.
  unfold field_usable, field_text, dict_get.
  destruct (d !! k) as [v|]; simpl; [|done].
  intros [Hf|[s ->]].
  - unfold py_or. rewrite Hf. simpl.
    destruct v as [| | | |s| |]; try done.
    simpl in Hf. apply negb_false_iff, bool_decide_eq_true in Hf. by subst.
  - unfold py_or. destruct (truthy (PStr s)) eqn:Ht; [done|].
    simpl in Ht. apply negb_false_iff, bool_decide_eq_true in Ht. by subst.
Qed.

Lemma text_field_raises (d : dict) (k : string) :
  ¬ field_usable d k →
  str_strip (py_or (dict_get d k) (PStr "")) = Raise AttributeError.
Proof.
  unfold field_usable, dict_get.
  destruct (d !! k) as [v|]; simpl; [|tauto].
  intros Hn. unfold py_or. destruct (truthy v) eqn:Ht; [|tauto].
  destruct v; try done. exfalso. eauto.
Qed.

Lemma description_key_usable (exp : dict) :
  description_usable exp →
  description_key exp = Ok (lower (strip (description_text exp))).
Proof.
  intros Hd. unfold description_key. by rewrite (text_field_strip _ _ Hd).
Qed.

Lemma description_key_raises (exp : dict) :
  ¬ description_usable exp → description_key exp = Raise AttributeError.
Proof.
  intros Hd. unfold description_key. by rewrite (text_field_raises _ _ Hd).
Qed.

Lemma keyword_loop_match (text : string) :
  keyword_loop EXCLUDE_DESCRIPTION_KEYWORDS (lower (strip text)) = true ↔
  keyword_match text.
Proof.
  rewrite keyword_loop_spec. unfold keyword_match.
  by setoid_rewrite str_in_spec.
Qed.

Lemma is_True_flagged (exp : dict) :
  is_True (dict_get exp "payment") = true ↔ flagged_payment exp.
Proof.
  unfold flagged_payment, dict_get.
  destruct (exp !! "payment") as [[|[]| | | | |]|]; simpl; split; congruence.
Qed.

(** On a usable description the filter returns the disjunction of its two
    tests. *)
Lemma should_exclude_expense_usable (exp : dict) :
  description_usable exp →
  should_exclude_expense exp =
    Ok (keyword_loop EXCLUDE_DESCRIPTION_KEYWORDS
          (lower (strip (description_text exp)))
        || is_True (dict_get exp "payment")).
Proof.
  intros Hd. unfold should_exclude_expense.
  rewrite (description_key_usable _ Hd). unfold bind.
  destruct (keyword_loop _ _); [done|]. by destruct (is_True _).
Qed.

(** A description that is a truthy non-string makes the filter raise. *)
Lemma should_exclude_expense_raises (exp : dict) :
  ¬ description_usable exp →
  should_exclude_expense exp = Raise AttributeError.
Proof.
  intros Hd. unfold should_exclude_expense.
  by rewrite (description_key_raises _ Hd).
Qed.

(** C3 (as amended): on a record whose description is absent, falsy or a
    string, [should_exclude_expense] returns a boolean, and that boolean is
    [True] exactly when a configured keyword occurs, case-insensitively, in
    the trimmed description (Rule 1) or the record is flagged [payment:
    true] (Rule 2). The function is a pure function of the record. *)
Theorem should_exclude_expense_rules (exp : dict) :
  description_usable exp →
  ∃ b, should_exclude_expense exp = Ok b ∧
       (b = true ↔ keyword_match (description_text exp) ∨ flagged_payment exp).
Proof.
  intros Hd. eexists. split; [by apply should_exclude_expense_usable|].
  by rewrite orb_true_iff, keyword_loop_match, is_True_flagged.
Qed.

Lemma description_usable_dec (exp : dict) :
  description_usable exp ∨ ¬ description_usable exp.
Proof.
  unfold description_usable, field_usable.
  destruct (exp !! "description") as [v|]; [|by left].
  destruct (truthy v) eqn:Ht; [|by left; left].
  destruct v; try (right; intros [?|[? ?]]; congruence).
  left. right. eauto.
Qed.

(** C10: when no keyword matches the description, the filter excludes a
    record only if its [payment] field is the boolean [True]; with a usable
    description it excludes it then, and returns [False] for every other
    value of the field, truthy or not, and for an absent field. *)
Theorem payment_rule_is_identity_with_True (exp : dict) :
  ¬ keyword_match (description_text exp) →
  (should_exclude_expense exp = Ok true → exp !! "payment" = Some (PBool true)) ∧
  (description_usable exp →
   ∃ b, should_exclude_expense exp = Ok b ∧
        (b = true ↔ exp !! "payment" = Some (PBool true))).
Proof.
  intros Hk.
  assert (description_usable exp →
          should_exclude_expense exp = Ok (is_True (dict_get exp "payment")))
    as Hfilter.
  { intros Hd. rewrite (should_exclude_expense_usable _ Hd).
    destruct (keyword_loop _ _) eqn:Hloop; [|done].
    by apply keyword_loop_match in Hloop. }
  split.
  - destruct (description_usable_dec exp) as [Hd|Hd].
    + rewrite (Hfilter Hd). intros [= Hp]. by apply is_True_flagged.
    + by rewrite (should_exclude_expense_raises _ Hd).
  - intros Hd. eexists. split; [by apply Hfilter|]. apply is_True_flagged.
Qed.

(** ** [strip] is idempotent *)

Lemma lstrip_head (s : string) :
  lstrip s = "" ∨ ∃ c t, lstrip s = String c t ∧ py_isspace c = false.
Proof.
  induction s as [|c s IH]; simpl; [by left|].
  destruct (py_isspace c) eqn:Hc; [done|]. right. eauto.
Qed.

Lemma rstrip_idem (s : string) : rstrip (rstrip s) = rstrip s.
Proof.
  induction s as [|c s IH]; simpl; [done|].
  destruct (rstrip s) as [|c' r] eqn:Hr.
  - destruct (py_isspace c) eqn:Hc; simpl; [done|]. by rewrite Hc.
  - change (rstrip (String c (String c' r))) with
      (match rstrip (String c' r) with
       | EmptyString => if py_isspace c then EmptyString else String c EmptyString
       | r' => String c r'
       end).
    by rewrite IH.
Qed.

Lemma rstrip_keeps_head (c : ascii) (s : string) :
  py_isspace c = false → ∃ t, rstrip (String c s) = String c t.
Proof.
  intros Hc. simpl. destruct (rstrip s); [rewrite Hc|]; eauto.
Qed.

Lemma strip_idem (s : string) : strip (strip s) = strip s.
Proof.
  unfold strip. destruct (lstrip_head s) as [->|(c & t & -> & Hc)]; [done|].
  destruct (rstrip_keeps_head c t Hc) as [t' Ht'].
  rewrite Ht'. simpl lstrip. rewrite Hc, <- Ht'. apply rstrip_idem.
Qed.

(** ** Net-contribution extractor *)

Section Extractor.
Context `{Externals}.

Lemma user_object_usable (u : dict) :
  user_usable u →
  as_dict (py_or (dict_get_default u "user" (PDict ∅)) (PDict ∅))
  = Ok (user_object u).
Proof.
  unfold user_usable, user_object, dict_get_default.
  destruct (u !! "user") as [v|]; simpl; [|done].
  intros [Hf|[o ->]]; unfold py_or.
  - rewrite Hf. simpl. destruct v as [| | | | | |o]; try done.
    simpl in Hf. apply negb_false_iff, bool_decide_eq_true in Hf. by subst.
  - destruct (truthy (PDict o)) eqn:Ht; [done|]. simpl in Ht.
    apply negb_false_iff, bool_decide_eq_true in Ht. by subst.
Qed.

(** On usable fields name resolution returns, and the player column is the
    chain the code walks. *)
Lemma resolve_name_usable (u : dict) :
  user_usable u →
  field_usable (user_object u) "first_name" →
  field_usable (user_object u) "last_name" →
  ∃ name, resolve_name u = Ok name ∧
          display_name name = name_chain (user_object u).
Proof.
  intros Hu Hf Hl. unfold resolve_name.
  rewrite (user_object_usable _ Hu). unfold bind at 1.
  rewrite (text_field_strip _ _ Hf). unfold bind at 1.
  rewrite (text_field_strip _ _ Hl). unfold bind at 1.
  eexists. split; [done|]. unfold name_chain, display_name.
  set (full := strip (strip (field_text (user_object u) "first_name") +:+ " "
                      +:+ strip (field_text (user_object u) "last_name"))).
  assert (truthy (PStr full) = negb (bool_decide (full = ""))) as -> by done.
  case_bool_decide as Hfull; simpl negb; cbv iota.
  - unfold py_or.
    destruct (truthy (dict_get (user_object u) "name")) eqn:Hn; cbv iota.
    { by rewrite Hn. }
    destruct (truthy (dict_get (user_object u) "email")) eqn:He; by cbv iota.
  - simpl py_str. unfold full. apply strip_idem.
Qed.

Lemma name_chain_spec (o : dict) :
  fallback_not_blank o "name" →
  fallback_not_blank o "email" →
  name_chain o = spec_display_name o.
Proof.
  unfold fallback_not_blank, name_chain, spec_display_name, fallback_text.
  intros Hname Hemail.
  case_bool_decide as Hfull.
  - rewrite bool_decide_false by (by intros []).
    destruct (truthy (dict_get o "name")) eqn:Hn.
    + by rewrite bool_decide_true by (by apply Hname).
    + rewrite bool_decide_false by (by intros []).
      destruct (truthy (dict_get o "email")) eqn:He.
      * by rewrite bool_decide_true by (by apply Hemail).
      * by rewrite bool_decide_false by (by intros []).
  - by rewrite bool_decide_true.
Qed.

(** A first or last name that is a truthy non-string makes name
    resolution raise. *)
Lemma resolve_name_raises (u : dict) :
  user_usable u →
  ¬ field_usable (user_object u) "first_name" →
  resolve_name u = Raise AttributeError.
Proof.
  intros Hu Hf. unfold resolve_name.
  rewrite (user_object_usable _ Hu). unfold bind at 1.
  by rewrite (text_field_raises _ _ Hf).
Qed.

(** C9 (as amended): when the user object is absent, falsy or a dict, its
    first and last name are absent, falsy or strings, and its account name
    and email are not blank when present, name resolution returns and the
    display name is the first non-empty of: first and last name, each
    trimmed, joined by one space and trimmed again; the account name as
    trimmed text; the email as trimmed text; and otherwise "Unknown". *)
Theorem display_name_chain (u : dict) :
  user_usable u →
  field_usable (user_object u) "first_name" →
  field_usable (user_object u) "last_name" →
  fallback_not_blank (user_object u) "name" →
  fallback_not_blank (user_object u) "email" →
  ∃ name, resolve_name u = Ok name ∧
          display_name name = spec_display_name (user_object u).
Proof.
  intros Hu Hf Hl Hname Hemail.
  destruct (resolve_name_usable u Hu Hf Hl) as (name & Hres & Hdisp).
  exists name. split; [done|]. by rewrite Hdisp, name_chain_spec.
Qed.

(** A record the filter keeps and whose date the parser rejects ends the
    call. *)
Lemma expense_rows_bad_date (exp : dict) (s : string) :
  should_exclude_expense exp = Ok false →
  exp !! "date" = Some (PStr s) →
  dateparser_parse s = None →
  expense_rows exp = Raise ParserError.
Proof.
  intros Hx Hd Hp. unfold expense_rows, dict_index. rewrite Hx, Hd. simpl.
  by rewrite Hp.
Qed.

(** A record the filter drops is skipped before its date is read. *)
Lemma expense_rows_excluded (exp : dict) :
  should_exclude_expense exp = Ok true → expense_rows exp = Ok [].
Proof. intros Hx. unfold expense_rows. by rewrite Hx. Qed.

Lemma parse_expenses_app (l1 l2 : list dict) :
  parse_expenses (l1 ++ l2) =
    (r1 <- parse_expenses l1 ;; r2 <- parse_expenses l2 ;; Ok (r1 ++ r2)).
Proof.
  induction l1 as [|exp l1 IH]; simpl.
  - by destruct (parse_expenses l2).
  - destruct (expense_rows exp) as [r|]; simpl; [|done]. rewrite IH.
    destruct (parse_expenses l1) as [r1|]; simpl; [|done].
    destruct (parse_expenses l2) as [r2|]; simpl; [|done].
    by rewrite (assoc_L (++)).
Qed.

(** C1 (as amended): when a record the filter keeps has a date string the
    parser rejects, [parse_expenses] raises the parser's error, wherever the
    record stands in the list and whatever the records before it yielded:
    the call returns no rows and no count. *)
Theorem unparseable_date_aborts (before after : list dict) (exp : dict)
    (s : string) (rows : list row) :
  parse_expenses before = Ok rows →
  should_exclude_expense exp = Ok false →
  exp !! "date" = Some (PStr s) →
  dateparser_parse s = None →
  parse_expenses (before ++ exp :: after) = Raise ParserError.
Proof.
  intros Hb Hx Hd Hp. rewrite parse_expenses_app, Hb. simpl.
  by rewrite (expense_rows_bad_date exp s Hx Hd Hp).
Qed.

End Extractor.

(** ** Binary64: subtraction and the test against zero

    [paid - owed] is the exact difference rounded to nearest. The lemmas
    below follow that rounding on the bit-level specification, to find
    when the difference compares equal to zero. *)

Lemma digits2_pos_lower (m : positive) :
  (2 ^ (Z.pos (digits2_pos m) - 1) ≤ Z.pos m)%Z.
Proof.
  induction m as [m IH|m IH|]; simpl digits2_pos; [| |done].
  - replace (Z.pos (Pos.succ (digits2_pos m)) - 1)%Z
      with (Z.succ (Z.pos (digits2_pos m) - 1)) by lia.
    rewrite Z.pow_succ_r by lia. lia.
  - replace (Z.pos (Pos.succ (digits2_pos m)) - 1)%Z
      with (Z.succ (Z.pos (digits2_pos m) - 1)) by lia.
    rewrite Z.pow_succ_r by lia. lia.
Qed.

Lemma digits2_pos_iter_xO (m d : positive) :
  digits2_pos (Pos.iter xO m d) = (digits2_pos m + d)%positive.
Proof.
  induction d as [|d IH] using Pos.peano_ind.
  - simpl. lia.
  - rewrite Pos.iter_succ. simpl. rewrite IH. lia.
Qed.

Lemma shr_1_m (mrs : shr_record) :
  (0 ≤ shr_m mrs)%Z → shr_m (shr_1 mrs) = (shr_m mrs / 2)%Z.
Proof.
  destruct mrs as [m r s]. simpl. intros Hm.
  destruct m as [|[p|p|]|p]; try lia; cbn [shr_m].
  - done.
  - apply Z.div_unique with 1%Z; lia.
  - apply Z.div_unique with 0%Z; lia.
  - done.
Qed.

Lemma iter_pos_shr_1_m (p : positive) (mrs : shr_record) :
  (0 ≤ shr_m mrs)%Z →
  shr_m (SpecFloat.iter_pos shr_1 p mrs) = (shr_m mrs / 2 ^ Z.pos p)%Z.
Proof.
  revert mrs. induction p as [p IH|p IH|]; intros mrs Hm;
    simpl SpecFloat.iter_pos.
  - assert (0 ≤ shr_m (shr_1 mrs))%Z as H1.
    { rewrite shr_1_m by done. apply Z.div_pos; lia. }
    assert (0 ≤ shr_m (SpecFloat.iter_pos shr_1 p (shr_1 mrs)))%Z as H2.
    { rewrite IH by done. apply Z.div_pos; [done|].
      apply Z.pow_pos_nonneg; lia. }
    rewrite IH, IH, shr_1_m by done.
    rewrite !Z.div_div by (try apply Z.pow_pos_nonneg; lia).
    f_equal. change (Z.pos p~1) with (2 * Z.pos p + 1)%Z.
    replace (2 * Z.pos p + 1)%Z with (1 + Z.pos p + Z.pos p)%Z by lia.
    rewrite !Z.pow_add_r by lia. lia.
  - assert (0 ≤ shr_m (SpecFloat.iter_pos shr_1 p mrs))%Z as H2.
    { rewrite IH by done. apply Z.div_pos; [done|].
      apply Z.pow_pos_nonneg; lia. }
    rewrite IH, IH by done.
    rewrite !Z.div_div by (try apply Z.pow_pos_nonneg; lia).
    f_equal. change (Z.pos p~0) with (2 * Z.pos p)%Z.
    replace (2 * Z.pos p)%Z with (Z.pos p + Z.pos p)%Z by lia.
    rewrite !Z.pow_add_r by lia. lia.
  - by rewrite shr_1_m.
Qed.

Lemma shr_record_of_loc_m (m : Z) (l : location) :
  shr_m (shr_record_of_loc m l) = m.
Proof. by destruct l as [|[]]. Qed.

(** Rounding a positive mantissa at an exponent within the range leaves
    a positive mantissa: the shift drops fewer bits than there are. *)
Lemma shr_fexp_pos (m : positive) (e : Z) (l : location) :
  (emin ≤ e)%Z →
  (0 < shr_m (shr_fexp prec emax (Z.pos m) e l).1)%Z ∧
  (emin ≤ (shr_fexp prec emax (Z.pos m) e l).2)%Z.
Proof.
  intros He. unfold shr_fexp, shr. simpl Zdigits2.
  pose proof (digits2_pos_lower m) as Hd.
  set (d := Z.pos (digits2_pos m)) in *.
  destruct (fexp prec emax (d + e) - e)%Z as [|p|p] eqn:Hn; simpl;
    rewrite ?shr_record_of_loc_m; try (split; [lia | done]).
  assert (Z.pos p = d - prec)%Z as Hp.
  { revert Hn He. unfold fexp, SpecFloat.emin, prec, emax. lia. }
  split; [|lia].
  rewrite iter_pos_shr_1_m, shr_record_of_loc_m
    by (rewrite shr_record_of_loc_m; lia).
  apply Z.div_str_pos. split; [apply Z.pow_pos_nonneg; lia|].
  etrans; [|exact Hd]. apply Z.pow_le_mono_r; [lia|].
  rewrite Hp. unfold prec. lia.
Qed.

Lemma round_nearest_even_pos (m : Z) (l : location) :
  (0 < m)%Z → (0 < round_nearest_even m l)%Z.
Proof.
  intros Hm. destruct l as [|[]]; simpl; [done| |done|lia].
  destruct (Z.even m); lia.
Qed.

Lemma binary_round_aux_nonzero (s : bool) (m : positive) (e : Z) (l : location) :
  (emin ≤ e)%Z →
  Binary64.is_zero_sf (binary_round_aux prec emax s (Z.pos m) e l) = false.
Proof.
  intros He. unfold binary_round_aux.
  destruct (shr_fexp_pos m e l He) as [Hm1 He1].
  destruct (shr_fexp prec emax (Z.pos m) e l) as [mrs' e']. simpl in Hm1, He1.
  pose proof (round_nearest_even_pos (shr_m mrs') (loc_of_shr_record mrs') Hm1)
    as Hr.
  destruct (round_nearest_even (shr_m mrs') (loc_of_shr_record mrs')) as [|m'|m'];
    try lia.
  destruct (shr_fexp_pos m' e' loc_Exact He1) as [Hm2 He2].
  destruct (shr_fexp prec emax (Z.pos m') e' loc_Exact) as [mrs'' e''].
  simpl in Hm2, He2.
  destruct (shr_m mrs''); try lia. by destruct (_ <=? _)%Z.
Qed.

Lemma binary_round_nonzero (s : bool) (m : positive) (e : Z) :
  (emin ≤ e)%Z → Binary64.is_zero_sf (binary_round prec emax s m e) = false.
Proof.
  intros He. unfold binary_round, shl_align.
  destruct (fexp prec emax (Z.pos (digits2_pos m) + e) - e)%Z eqn:Hn;
    apply binary_round_aux_nonzero; try done.
  unfold fexp, SpecFloat.emin, prec, emax. lia.
Qed.

Lemma binary_normalize_nonzero (m e : Z) (sz : bool) :
  m ≠ 0%Z → (emin ≤ e)%Z →
  Binary64.is_zero_sf (binary_normalize prec emax m e sz) = false.
Proof.
  intros Hm He. destruct m; [done|..]; simpl; by apply binary_round_nonzero.
Qed.

Lemma SFeqb_finite_refl (s : bool) (m : positive) (e : Z) :
  SFeqb (S754_finite s m e) (S754_finite s m e) = true.
Proof.
  unfold SFeqb, SFcompare.
  destruct s; by rewrite Z.compare_refl, Pos.compare_cont_refl.
Qed.

Lemma SFeqb_finite_inv (sx sy : bool) (mx my : positive) (ex ey : Z) :
  SFeqb (S754_finite sx mx ex) (S754_finite sy my ey) = true →
  sx = sy ∧ mx = my ∧ ex = ey.
Proof.
  unfold SFeqb, SFcompare.
  destruct sx, sy; try done; destruct (Z.compare_spec ex ey) as [->| |]; try done;
    destruct (Pos.compare_cont Eq mx my) eqn:Hm; try done;
    apply Pos.compare_eq in Hm; by subst.
Qed.

(** Two canonical mantissas that agree once aligned on the smaller
    exponent are the same number with the same exponent. *)
Lemma aligned_mantissas_inj (mx my : positive) (ex ey : Z) :
  bounded prec emax mx ex = true → bounded prec emax my ey = true →
  (shl_align mx ex (Z.min ex ey)).1 = (shl_align my ey (Z.min ex ey)).1 →
  mx = my ∧ ex = ey.
Proof.
  unfold bounded, canonical_mantissa.
  intros [Hx%Z.eqb_eq _]%andb_true_iff [Hy%Z.eqb_eq _]%andb_true_iff.
  unfold shl_align.
  destruct (Z.min ex ey - ex)%Z as [|d|d] eqn:Hdx;
    destruct (Z.min ex ey - ey)%Z as [|d'|d'] eqn:Hdy; simpl; try lia.
  - intros ->. exfalso. rewrite digits2_pos_iter_xO in Hx.
    revert Hx Hy. unfold fexp. lia.
  - intros <-. exfalso. rewrite digits2_pos_iter_xO in Hy.
    revert Hx Hy. unfold fexp. lia.
Qed.

(** On finite operands the difference is a zero exactly when the operands
    compare equal: there is no underflow to zero in a subtraction. *)
Lemma SFsub_zero_iff (x y : spec_float) :
  valid_binary x = true → valid_binary y = true →
  Binary64.finite_sf x = true → Binary64.finite_sf y = true →
  Binary64.is_zero_sf (SFsub prec emax x y) = SFeqb x y.
Proof.
  destruct x as [sx|sx| |sx mx ex], y as [sy|sy| |sy my ey]; try done.
  - by destruct sx, sy.
  - by destruct sy.
  - by destruct sx.
  - simpl valid_binary. intros Hx Hy _ _.
    destruct (SFeqb (S754_finite sx mx ex) (S754_finite sy my ey)) eqn:Heq.
    + apply SFeqb_finite_inv in Heq as (-> & -> & ->).
      unfold SFsub. by rewrite Z.sub_diag.
    + unfold SFsub. apply binary_normalize_nonzero.
      * intros Hz.
        assert ((shl_align mx ex (Z.min ex ey)).1
                = (shl_align my ey (Z.min ex ey)).1 ∧ sx = sy) as [Ha ->].
        { revert Hz. destruct sx, sy; simpl; lia. }
        apply aligned_mantissas_inj in Ha as [-> ->]; [|done..].
        by rewrite SFeqb_finite_refl in Heq.
      * revert Hx Hy. unfold bounded, canonical_mantissa.
        intros [Hx%Z.eqb_eq _]%andb_true_iff [Hy%Z.eqb_eq _]%andb_true_iff.
        revert Hx Hy. unfold fexp, SpecFloat.emin, prec, emax. lia.
Qed.

Lemma eqb_zero_spec (x : float) :
  (x =? 0)%float = Binary64.is_zero_sf (Prim2SF x).
Proof.
  rewrite FloatAxioms.eqb_spec. change (Prim2SF 0) with (S754_zero false).
  by destruct (Prim2SF x) as [s|[]| |[] m e].
Qed.

Lemma is_finite_spec (x : float) : is_finite x = Binary64.finite_sf (Prim2SF x).
Proof.
  unfold is_finite, is_nan, is_infinity.
  rewrite !FloatAxioms.eqb_spec, FloatAxioms.abs_spec.
  change (Prim2SF infinity) with (S754_infinity false).
  destruct (Prim2SF x) as [s|[]| |s m e]; try done.
  simpl SFabs. by rewrite !SFeqb_finite_refl.
Qed.

(** [p - o == 0] holds exactly when [p] and [o] are finite and [p == o]. *)
Lemma sub_eqb_zero (p o : float) :
  (p - o =? 0)%float = is_finite p && is_finite o && (p =? o)%float.
Proof.
  rewrite eqb_zero_spec, FloatAxioms.sub_spec, !is_finite_spec.
  rewrite FloatAxioms.eqb_spec.
  pose proof (Prim2SF_valid p) as Hp. pose proof (Prim2SF_valid o) as Ho.
  destruct (Binary64.finite_sf (Prim2SF p)) eqn:Hfp;
    [destruct (Binary64.finite_sf (Prim2SF o)) eqn:Hfo|].
  - by apply SFsub_zero_iff.
  - destruct (Prim2SF p) as [| | |], (Prim2SF o) as [|[]| |]; done.
  - destruct (Prim2SF p) as [|[]| |], (Prim2SF o) as [|[]| |]; done.
Qed.

(** ** Share conversion and the zero-net test in binary64 *)

Section Shares.
Context `{Externals}.

(** The conversion of a share field, case by case on the value found. *)
Lemma share_cases (u : dict) (k : string) :
  match Binary64.share_value u k with
  | Some f => Binary64.share u k = Ok f
  | None => ∃ e, Binary64.share u k = Raise e
  end.
Proof.
  unfold Binary64.share_value, Binary64.share, dict_get_default, Binary64.py_or.
  destruct (u !! k) as [[|[]|z|q|s|[|x l]|d]|]; simpl; try done; eauto.
  - destruct (Z.eqb_spec z 0) as [->|Hz]; simpl; [done|].
    unfold Binary64.float_of_int. destruct (is_infinity _); eauto.
  - by destruct (Binary64.nearest q =? 0)%float.
  - case_bool_decide; simpl; [done|].
    destruct (Binary64.float_of_string s); eauto.
  - case_bool_decide; simpl; eauto.
Qed.

Lemma share_Some (u : dict) (k : string) (f : float) :
  Binary64.share_value u k = Some f → Binary64.share u k = Ok f.
Proof. intros Hv. pose proof (share_cases u k) as Hc. by rewrite Hv in Hc. Qed.

Lemma share_None (u : dict) (k : string) :
  Binary64.share_value u k = None → ∃ e, Binary64.share u k = Raise e.
Proof. intros Hv. pose proof (share_cases u k) as Hc. by rewrite Hv in Hc. Qed.

(** The rows one participation appends, once its name and shares are
    known. *)
Lemma user_rows_shares (dt : datetime) (desc : pyval) (u : dict)
    (name : pyval) (p o : float) :
  resolve_name u = Ok name →
  Binary64.share u "paid_share" = Ok p →
  Binary64.share u "owed_share" = Ok o →
  Binary64.user_rows dt desc (PDict u) =
    Ok (if (p - o =? 0)%float then []
        else [ {| Binary64.date := dt; Binary64.player := display_name name;
                  Binary64.winnings := (p - o)%float;
                  Binary64.expense := desc |} ]).
Proof.
  intros Hn Hp Ho. unfold Binary64.user_rows. simpl as_dict. unfold bind at 1.
  rewrite Hn. unfold bind at 1. rewrite Hp. unfold bind at 1.
  rewrite Ho. unfold bind at 1. by destruct (p - o =? 0)%float.
Qed.

(** C2 (as amended): a share that is absent or falsy counts as 0.0; a
    boolean, an integer whose nearest binary64 is finite, a JSON number or
    a string [float] accepts counts as its binary64 value ([share_value]
    lists the cases). For a participation whose two shares are of these
    kinds (and whose name resolves) both conversions succeed, no error is
    raised, and every row it yields carries the binary64 difference
    [paid_share - owed_share]. *)
Theorem shares_coerce_without_error (dt : datetime) (desc : pyval) (u : dict)
    (name : pyval) (p o : float) :
  resolve_name u = Ok name →
  Binary64.share_value u "paid_share" = Some p →
  Binary64.share_value u "owed_share" = Some o →
  Binary64.share u "paid_share" = Ok p ∧
  Binary64.share u "owed_share" = Ok o ∧
  ∃ rows, Binary64.user_rows dt desc (PDict u) = Ok rows ∧
          Forall (λ r, Binary64.winnings r = (p - o)%float) rows.
Proof.
  intros Hn Hp%share_Some Ho%share_Some. split; [done|]. split; [done|].
  eexists. split; [by eapply user_rows_shares|].
  destruct (p - o =? 0)%float; repeat constructor.
Qed.

(** A share that is neither absent, falsy nor convertible makes the
    extractor raise. *)
Lemma bad_share_raises (dt : datetime) (desc : pyval) (u : dict) (name : pyval) :
  resolve_name u = Ok name →
  Binary64.share_value u "paid_share" = None →
  ∃ e, Binary64.user_rows dt desc (PDict u) = Raise e.
Proof.
  intros Hn [e He]%share_None. exists e. unfold Binary64.user_rows.
  simpl as_dict. unfold bind at 1. rewrite Hn. unfold bind at 1.
  by rewrite He.
Qed.

Lemma users_loop_nonzero (dt : datetime) (desc : pyval) (us : list pyval)
    (rows : list Binary64.row) :
  Binary64.users_loop dt desc us = Ok rows →
  Forall (λ r, (Binary64.winnings r =? 0)%float = false) rows.
Proof.
  revert rows. induction us as [|u us IH]; intros rows; simpl.
  - intros [= <-]. constructor.
  - destruct (Binary64.user_rows dt desc u) as [r|] eqn:Hu; simpl; [|done].
    destruct (Binary64.users_loop dt desc us) as [rs|]; simpl; [|done].
    intros [= <-]. apply Forall_app. split; [|by apply IH].
    unfold Binary64.user_rows in Hu.
    destruct (as_dict u) as [d|]; simpl in Hu; [|done].
    destruct (resolve_name d) as [name|]; simpl in Hu; [|done].
    destruct (Binary64.share d "paid_share") as [p|]; simpl in Hu; [|done].
    destruct (Binary64.share d "owed_share") as [o|]; simpl in Hu; [|done].
    destruct (p - o =? 0)%float eqn:Hnet; injection Hu as <-;
      repeat constructor. done.
Qed.

Lemma expense_rows_nonzero (exp : dict) (rows : list Binary64.row) :
  Binary64.expense_rows exp = Ok rows →
  Forall (λ r, (Binary64.winnings r =? 0)%float = false) rows.
Proof.
  unfold Binary64.expense_rows.
  destruct (should_exclude_expense exp) as [[]|]; simpl; try done.
  { intros [= <-]. constructor. }
  destruct (dict_index exp "date") as [d|]; simpl; [|done].
  destruct (parse_date d) as [dt|]; simpl; [|done].
  case_bool_decide; [intros [= <-]; constructor|].
  destruct (py_iter _) as [us|]; simpl; [|done].
  apply users_loop_nonzero.
Qed.

Lemma parse_expenses_nonzero (expenses : list dict) (rows : list Binary64.row) :
  Binary64.parse_expenses expenses = Ok rows →
  Forall (λ r, (Binary64.winnings r =? 0)%float = false) rows.
Proof.
  revert rows. induction expenses as [|exp rest IH]; intros rows; simpl.
  - intros [= <-]. constructor.
  - destruct (Binary64.expense_rows exp) as [r|] eqn:He; simpl; [|done].
    destruct (Binary64.parse_expenses rest) as [rs|]; simpl; [|done].
    intros [= <-]. apply Forall_app. split; [|by apply IH].
    by eapply expense_rows_nonzero.
Qed.

(** C7 (as amended): every row [parse_expenses] returns passes the test
    [net != 0] (its amount is a non-zero number, an infinity or NaN); a
    participation whose converted shares are finite and equal yields no
    row, and any other (shares that differ, or a share that is infinite or
    NaN) yields exactly one row, whose amount is the binary64 difference
    [paid_share - owed_share]. *)
Theorem rows_have_nonzero_net (expenses : list dict) (rows : list Binary64.row)
    (dt : datetime) (desc : pyval) (u : dict) (name : pyval) (p o : float) :
  Binary64.parse_expenses expenses = Ok rows →
  resolve_name u = Ok name →
  Binary64.share u "paid_share" = Ok p →
  Binary64.share u "owed_share" = Ok o →
  Forall (λ r, (Binary64.winnings r =? 0)%float = false) rows ∧
  (is_finite p && is_finite o && (p =? o)%float = true →
   Binary64.user_rows dt desc (PDict u) = Ok []) ∧
  (is_finite p && is_finite o && (p =? o)%float = false →
   Binary64.user_rows dt desc (PDict u) =
     Ok [ {| Binary64.date := dt; Binary64.player := display_name name;
             Binary64.winnings := (p - o)%float;
             Binary64.expense := desc |} ]).
Proof.
  intros Hrows Hn Hp Ho. split; [by eapply parse_expenses_nonzero|].
  rewrite (user_rows_shares dt desc u name p o Hn Hp Ho), sub_eqb_zero.
  split; by intros ->.
Qed.

End Shares.

(** ** Calendar bucketer *)

(** C8: [add_week_keys] keeps every row, in order and unchanged, and gives
    each one the week [(day - 1) // 7 + 1], which lies in 1..5 for a day of
    the month, the month column holding the month's three-letter
    abbreviation, and the label made of that abbreviation, [" W"] and the
    digit of the week: ["Mar W2"] for the 10th of March. *)
Theorem add_week_keys_buckets (df : list row) :
  Forall (λ r, (1 ≤ month (date r) ≤ 12)%Z ∧ (1 ≤ day (date r) ≤ 31)%Z) df →
  base <$> add_week_keys df = df ∧
  Forall (λ k,
            week_of_month k = ((day (date (base k)) - 1) `div` 7 + 1)%Z ∧
            (1 ≤ week_of_month k ≤ 5)%Z ∧
            [ "Jan"; "Feb"; "Mar"; "Apr"; "May"; "Jun";
              "Jul"; "Aug"; "Sep"; "Oct"; "Nov"; "Dec" ]
              !! Z.to_nat (month (date (base k)) - 1) = Some (month_col k) ∧
            ∃ n, [ "1"; "2"; "3"; "4"; "5" ] !! Z.to_nat (week_of_month k - 1)
                   = Some n ∧
                 week_label k = month_col k +:+ " W" +:+ n)
         (add_week_keys df).
Proof.
  intros Hdays. unfold add_week_keys. split.
  - rewrite <- list_fmap_compose. by rewrite <- (list_fmap_id df) at 2.
  - apply Forall_fmap. revert Hdays. apply List.Forall_impl.
    intros r [Hm Hd]. simpl.
    assert (0 ≤ (day (date r) - 1) `div` 7 ≤ 4)%Z as Hw.
    { split; [apply Z.div_pos; lia|].
      apply Z.lt_succ_r, Z.div_lt_upper_bound; lia. }
    split; [done|]. split; [lia|]. split.
    + assert (∃ i, (i < 12)%nat ∧ month (date r) = Z.of_nat (S i)) as (i & Hi & ->).
      { exists (Z.to_nat (month (date r) - 1)). lia. }
      replace (Z.to_nat (Z.of_nat (S i) - 1)) with i by lia.
      do 12 (destruct i as [|i]; [reflexivity|]). lia.
    + assert (∃ i, (i < 5)%nat ∧
                   ((day (date r) - 1) `div` 7 + 1)%Z = Z.of_nat (S i))
        as (i & Hi & ->).
      { exists (Z.to_nat ((day (date r) - 1) `div` 7)). lia. }
      replace (Z.to_nat (Z.of_nat (S i) - 1)) with i by lia.
      do 5 (destruct i as [|i]; [by eexists|]). lia.
Qed.

(** ** Leaderboard aggregator *)

#[global] Instance winnings_desc_total : Total winnings_desc.
Proof. intros a b. unfold winnings_desc. destruct (total Qcle a.2 b.2); auto. Qed.

#[global] Instance winnings_desc_trans : Transitive winnings_desc.
Proof. intros a b c. unfold winnings_desc. intros ??. by etrans. Qed.

#[global] Instance weekly_order_total : Total weekly_order.
Proof.
  intros a b. unfold weekly_order.
  destruct (decide (a.1.1 = b.1.1)) as [Heq|Hne].
  - destruct (total Qcle a.2 b.2); auto.
  - destruct (total String.le a.1.1 b.1.1); auto.
Qed.

#[global] Instance weekly_order_trans : Transitive weekly_order.
Proof.
  intros a b c. unfold weekly_order.
  intros [[Hab1 Hab2]|[Hab1 Hab2]] [[Hbc1 Hbc2]|[Hbc1 Hbc2]].
  - left. split; [|by etrans]. intros Hac. rewrite <- Hac in Hbc2.
    apply Hab1. by apply (anti_symm String.le).
  - left. rewrite <- Hbc1. done.
  - left. rewrite Hab1. done.
  - right. split; [congruence | by etrans].
Qed.

Lemma sumQc_cons (x : Qc) (l : list Qc) : sumQc (x :: l) = (x + sumQc l)%Qc.
Proof. done. Qed.

Lemma sumQc_app (l1 l2 : list Qc) : sumQc (l1 ++ l2) = (sumQc l1 + sumQc l2)%Qc.
Proof.
  induction l1 as [|x l1 IH]; [unfold sumQc; simpl; ring|].
  rewrite <- app_comm_cons, !sumQc_cons, IH. ring.
Qed.

#[global] Instance sumQc_perm : Proper ((≡ₚ) ==> (=)) sumQc.
Proof.
  intros l1 l2 Hp. induction Hp; rewrite ?sumQc_cons; [done| congruence | ring | congruence].
Qed.








(** *** Yearly leaderboard *)








(** *** The yearly totals in binary64 *)




(** *** Weekly totals *)



















(** * The properties on the scenario of the specification

    The statements below are closed: they run the functions on the data
    defined above, with the reference parsers. *)

Section Scenario.
#[local] Existing Instance reference_externals.

Lemma row_winnings_eq (d : datetime) (p : string) (w1 w2 : Qc) (e : pyval) :
  this w1 = this w2 →
  {| date := d; player := p; winnings := w1; expense := e |}
  = {| date := d; player := p; winnings := w2; expense := e |}.
Proof. intros Hw. f_equal. by apply Qc_is_canon; rewrite Hw. Qed.

Lemma poker_night_parses : parse_expenses [poker_night] = Ok poker_night_rows.
Proof.
  vm_compute. f_equal.
  f_equal; [by apply row_winnings_eq|].
  f_equal. by apply row_winnings_eq.
Qed.

(** The scenario: A +75 and B -75 in week "Mar W2", ranked in that order. *)
Example scenario_yearly :
  (λ y, (rank y, y_player y, this (total_winnings y)))
    <$> (compute_leaderboards poker_night_rows).1.1
  = [(1, "A", 75%Q); (2, "B", (-75)%Q)].
Proof. by vm_compute. Qed.

Example scenario_weekly_totals :
  (λ t, (w_week_label t, week_rank t, w_player t, this (w_winnings t)))
    <$> (compute_leaderboards poker_night_rows).2
  = [("Mar W2", 1, "A", 75%Q); ("Mar W2", 2, "B", (-75)%Q)].
Proof. by vm_compute. Qed.

Example scenario_weekly_winners :
  (λ t, (ww_week_label t, winner t, this (top_winnings t)))
    <$> (compute_leaderboards poker_night_rows).1.2
  = [("Mar W2", "A", 75%Q)].
Proof. by vm_compute. Qed.

Example scenario_keywords :
  keyword_loop EXCLUDE_DESCRIPTION_KEYWORDS
    (lower (strip "Settle ALL Balances please")) = true ∧
  keyword_loop EXCLUDE_DESCRIPTION_KEYWORDS
    (lower (strip "Poker Mat restock $20")) = true.
Proof. by vm_compute. Qed.

(** *** Conversion to binary64 *)

(** [float] of an integer rounds to nearest, ties to even: 2^53 + 1 goes
    down to 2^53 and 2^53 + 3 up to 2^53 + 4; the largest integer that
    converts is just below 2^1024 - 2^970. *)
Example float_of_int_rounds :
  Binary64.float_of_int 25 = Ok 25%float ∧
  Binary64.float_of_int (2 ^ 53 + 1) = Ok 9007199254740992%float ∧
  Binary64.float_of_int (2 ^ 53 + 3) = Ok 9007199254740996%float ∧
  Binary64.float_of_int (2 ^ 1024 - 2 ^ 970 - 1)
  = Ok 1.7976931348623157e308%float ∧
  Binary64.float_of_int (2 ^ 1024 - 2 ^ 970) = Raise OverflowError.
Proof. by vm_compute. Qed.

(** A decimal is read to the nearest binary64; beyond the range it reads
    as an infinity, below it as a zero. *)
Example nearest_rounds :
  Binary64.nearest (Q2Qc (1 # 10)) = 0.1%float ∧
  Binary64.nearest (Q2Qc (1 # 3)) = 0.33333333333333331%float ∧
  Binary64.nearest (Q2Qc (-(5 # 2))) = (-2.5)%float ∧
  Binary64.nearest (Qc_of_Z (10 ^ 400)) = infinity ∧
  Binary64.nearest (Q2Qc (1 # 10 ^ 400)) = 0%float.
Proof. by vm_compute. Qed.

(** [float] of a string reads the spellings of infinity and NaN, whatever
    the case and the white space around them. *)
Example float_of_string_reads_inf_and_nan :
  Binary64.float_of_string "25.0" = Some 25%float ∧
  Binary64.float_of_string " -Infinity " = Some neg_infinity ∧
  Binary64.float_of_string "NaN" = Some nan ∧
  Binary64.float_of_string "abc" = None.
Proof. by vm_compute. Qed.

(** The compensated sum of a group: 0.1 + 0.2 rounds up, and the
    compensation carried to the third entry brings 0.1 + 0.2 + 0.3 back to
    0.6, where the plain running sum gives 0.6000000000000001. *)
Example group_sum_is_compensated :
  Binary64.group_sum [0.1; 0.2]%float = 0.30000000000000004%float ∧
  Binary64.group_sum [0.1; 0.2; 0.3]%float = 0.6%float ∧
  Binary64.running_sum [0.1; 0.2; 0.3]%float = 0.6000000000000001%float ∧
  Binary64.group_sum [infinity; 1; nan]%float = infinity.
Proof. by vm_compute. Qed.

(** *** C1 *)

(** C1, refuted as stated: a record with an unreadable date ahead of a good
    record makes the whole call raise; the good record yields no rows and
    nothing is counted. *)
Lemma unparseable_date_stops_the_run :
  parse_expenses [undated_night; poker_night] = Raise ParserError.
Proof. by vm_compute. Qed.

Lemma unparseable_date_aborts_witness :
  parse_expenses [poker_night] = Ok poker_night_rows ∧
  should_exclude_expense undated_night = Ok false ∧
  undated_night !! "date" = Some (PStr "not a date") ∧
  dateparser_parse "not a date" = None ∧
  parse_expenses ([poker_night] ++ undated_night :: [poker_night])
  = Raise ParserError.
Proof.
  assert (should_exclude_expense undated_night = Ok false) as Hx
    by (by vm_compute).
  assert (undated_night !! "date" = Some (PStr "not a date")) as Hd
    by (by vm_compute).
  assert (dateparser_parse "not a date" = None) as Hp by (by vm_compute).
  split; [exact poker_night_parses|]. split; [exact Hx|].
  split; [exact Hd|]. split; [exact Hp|].
  exact (unparseable_date_aborts [poker_night] [poker_night] undated_night
           "not a date" poker_night_rows poker_night_parses Hx Hd Hp).
Defined.

(** *** C2 *)

(** C2, refuted as stated: a share that is a non-numeric string is not
    coerced to 0 but makes the extractor raise [ValueError], and an integer
    share beyond the binary64 range makes it raise [OverflowError]. *)
Lemma non_numeric_share_raises :
  Binary64.user_rows mar10 (PStr "Poker Night") (participant "A" "" "abc" "25.0")
  = Raise ValueError ∧
  Binary64.user_rows mar10 (PStr "Poker Night") (PDict huge_share_user)
  = Raise OverflowError.
Proof. by vm_compute. Qed.

Lemma shares_coerce_without_error_witness :
  resolve_name decimal_shares_user = Ok (PStr "A") ∧
  Binary64.share_value decimal_shares_user "paid_share" = Some 0.1%float ∧
  Binary64.share_value decimal_shares_user "owed_share" = Some 0.25%float ∧
  (Binary64.share decimal_shares_user "paid_share" = Ok 0.1%float ∧
   Binary64.share decimal_shares_user "owed_share" = Ok 0.25%float ∧
   ∃ rows, Binary64.user_rows mar10 PNone (PDict decimal_shares_user) = Ok rows ∧
           Forall (λ r, Binary64.winnings r = (0.1 - 0.25)%float) rows).
Proof.
  assert (resolve_name decimal_shares_user = Ok (PStr "A")) as Hn
    by (by vm_compute).
  assert (Binary64.share_value decimal_shares_user "paid_share" = Some 0.1%float)
    as Hp by (by vm_compute).
  assert (Binary64.share_value decimal_shares_user "owed_share" = Some 0.25%float)
    as Ho by (by vm_compute).
  split; [exact Hn|]. split; [exact Hp|]. split; [exact Ho|].
  exact (shares_coerce_without_error mar10 PNone decimal_shares_user
           (PStr "A") 0.1%float 0.25%float Hn Hp Ho).
Defined.

(** A share that is absent counts as 0.0, an integer as its value. *)
Example absent_share_is_zero :
  Binary64.share no_paid_share_user "paid_share" = Ok 0%float ∧
  Binary64.share no_paid_share_user "owed_share" = Ok 25%float ∧
  Binary64.user_rows mar10 PNone (PDict no_paid_share_user)
  = Ok [ {| Binary64.date := mar10; Binary64.player := "A";
            Binary64.winnings := (-25)%float; Binary64.expense := PNone |} ].
Proof. by vm_compute. Qed.

(** A share spelled as a decimal string, as the ledger sends it, is read to
    the nearest binary64. *)
Example share_of_a_decimal_string :
  Binary64.share (participant_dict "A" "" (PStr "0.1") (PStr "25.0")) "paid_share"
  = Ok 0.1%float.
Proof. by vm_compute. Qed.

(** *** C3 *)

(** C3, refuted as stated: a description that is a number makes the filter
    raise. *)
Lemma numeric_description_raises :
  should_exclude_expense numbered_night = Raise AttributeError.
Proof. by vm_compute. Qed.

Lemma should_exclude_expense_rules_witness :
  description_usable poker_night ∧
  ∃ b, should_exclude_expense poker_night = Ok b ∧
       (b = true ↔ keyword_match (description_text poker_night)
                   ∨ flagged_payment poker_night).
Proof.
  assert (description_usable poker_night) as Hd.
  { unfold description_usable, field_usable.
    replace (poker_night !! "description") with (Some (PStr "Poker Night"))
      by (by vm_compute).
    right. by exists "Poker Night". }
  split; [exact Hd|]. exact (should_exclude_expense_rules poker_night Hd).
Defined.

(** *** C10 *)

Lemma payment_rule_is_identity_with_True_witness :
  ¬ keyword_match (description_text paid_night) ∧
  (should_exclude_expense paid_night = Ok true →
   paid_night !! "payment" = Some (PBool true)) ∧
  (description_usable paid_night →
   ∃ b, should_exclude_expense paid_night = Ok b ∧
        (b = true ↔ paid_night !! "payment" = Some (PBool true))).
Proof.
  assert (¬ keyword_match (description_text paid_night)) as Hk.
  { intros Hk%keyword_loop_match. vm_compute in Hk. discriminate Hk. }
  split; [exact Hk|].
  exact (payment_rule_is_identity_with_True paid_night Hk).
Defined.

(** The integer 1 in [payment] does not exclude. *)
Example payment_one_is_kept : should_exclude_expense paid_night = Ok false.
Proof. by vm_compute. Qed.

(** *** C4 *)


(** *** C5 *)



(** Adding a column in binary64 depends on the order of its entries: with
    the rows B 0.1, A 0.2, A 0.3 each total is exact (0.2 + 0.3 is 0.5), and
    the totals and the amounts have the same sum as numbers, but added from
    left to right the totals give 0.6 and the amounts 0.6000000000000001. *)
Example column_sums_depend_on_order :
  (λ y, (Binary64.y_player y, Binary64.total_winnings y))
    <$> Binary64.yearly_leaderboard
          [ amount_row "B" 0.1%float; amount_row "A" 0.2%float;
            amount_row "A" 0.3%float ]
  = [("A", 0.5%float); ("B", 0.1%float)] ∧
  this (Binary64.rational 0.5 + Binary64.rational 0.1)%Qc
  = this (Binary64.rational 0.1 + Binary64.rational 0.2
          + Binary64.rational 0.3)%Qc ∧
  Binary64.running_sum [0.5; 0.1]%float = 0.6%float ∧
  Binary64.running_sum [0.1; 0.2; 0.3]%float = 0.6000000000000001%float.
Proof. by vm_compute. Qed.

(** The totals of the exact rows: A 87.5, B -75. *)
Example exact_rows_yearly :
  (λ y, (Binary64.rank y, Binary64.y_player y, Binary64.total_winnings y))
    <$> Binary64.yearly_leaderboard exact_rows
  = [(1, "A", 87.5%float); (2, "B", (-75)%float)].
Proof. by vm_compute. Qed.

(** *** C7 *)

(** C7, refuted as stated: two shares that are both ["inf"] are equal, and
    their difference is NaN, of which [net != 0] is true: the participation
    yields a row. And two integer shares one apart beyond 2^53 convert to
    the same binary64: the participation yields no row. *)
Lemma equal_infinite_shares_make_a_row :
  Binary64.share infinite_shares_user "paid_share" = Ok infinity ∧
  Binary64.share infinite_shares_user "owed_share" = Ok infinity ∧
  (infinity =? infinity)%float = true ∧
  Binary64.user_rows mar10 PNone (PDict infinite_shares_user)
  = Ok [ {| Binary64.date := mar10; Binary64.player := "A";
            Binary64.winnings := nan; Binary64.expense := PNone |} ] ∧
  Binary64.share large_shares_user "paid_share" = Ok 9007199254740992%float ∧
  Binary64.share large_shares_user "owed_share" = Ok 9007199254740992%float ∧
  Binary64.user_rows mar10 PNone (PDict large_shares_user) = Ok [].
Proof. by vm_compute. Qed.

Lemma poker_night_parses_amounts :
  Binary64.parse_expenses [poker_night] = Ok poker_night_amounts.
Proof. by vm_compute. Qed.

Lemma rows_have_nonzero_net_witness :
  Binary64.parse_expenses [poker_night] = Ok poker_night_amounts ∧
  resolve_name no_paid_share_user = Ok (PStr "A") ∧
  Binary64.share no_paid_share_user "paid_share" = Ok 0%float ∧
  Binary64.share no_paid_share_user "owed_share" = Ok 25%float ∧
  (Forall (λ r, (Binary64.winnings r =? 0)%float = false) poker_night_amounts ∧
   (is_finite 0 && is_finite 25 && (0 =? 25)%float = true →
    Binary64.user_rows mar10 PNone (PDict no_paid_share_user) = Ok []) ∧
   (is_finite 0 && is_finite 25 && (0 =? 25)%float = false →
    Binary64.user_rows mar10 PNone (PDict no_paid_share_user) =
      Ok [ {| Binary64.date := mar10; Binary64.player := display_name (PStr "A");
              Binary64.winnings := (0 - 25)%float;
              Binary64.expense := PNone |} ])).
Proof.
  assert (resolve_name no_paid_share_user = Ok (PStr "A")) as Hn
    by (by vm_compute).
  assert (Binary64.share no_paid_share_user "paid_share" = Ok 0%float) as Hp
    by (by vm_compute).
  assert (Binary64.share no_paid_share_user "owed_share" = Ok 25%float) as Ho
    by (by vm_compute).
  split; [exact poker_night_parses_amounts|]. split; [exact Hn|].
  split; [exact Hp|]. split; [exact Ho|].
  exact (rows_have_nonzero_net [poker_night] poker_night_amounts mar10 PNone
           no_paid_share_user (PStr "A") 0%float 25%float
           poker_night_parses_amounts Hn Hp Ho).
Defined.

(** A participation whose shares are equal yields no row. *)
Example even_split_yields_no_row :
  Binary64.user_rows mar10 PNone (participant "A" "" "25.0" "25.0") = Ok [].
Proof. by vm_compute. Qed.

(** *** C8 *)

Lemma add_week_keys_buckets_witness :
  Forall (λ r, (1 ≤ month (date r) ≤ 12)%Z ∧ (1 ≤ day (date r) ≤ 31)%Z)
    poker_night_rows ∧
  base <$> add_week_keys poker_night_rows = poker_night_rows ∧
  Forall (λ k,
            week_of_month k = ((day (date (base k)) - 1) `div` 7 + 1)%Z ∧
            (1 ≤ week_of_month k ≤ 5)%Z ∧
            [ "Jan"; "Feb"; "Mar"; "Apr"; "May"; "Jun";
              "Jul"; "Aug"; "Sep"; "Oct"; "Nov"; "Dec" ]
              !! Z.to_nat (month (date (base k)) - 1) = Some (month_col k) ∧
            ∃ n, [ "1"; "2"; "3"; "4"; "5" ] !! Z.to_nat (week_of_month k - 1)
                   = Some n ∧
                 week_label k = month_col k +:+ " W" +:+ n)
         (add_week_keys poker_night_rows).
Proof.
  assert (Forall (λ r, (1 ≤ month (date r) ≤ 12)%Z ∧ (1 ≤ day (date r) ≤ 31)%Z)
            poker_night_rows) as Hdays.
  { repeat constructor; simpl; lia. }
  split; [exact Hdays|]. exact (add_week_keys_buckets poker_night_rows Hdays).
Defined.

Example march_10_is_week_2 :
  week_label <$> add_week_keys poker_night_rows = ["Mar W2"; "Mar W2"].
Proof. by vm_compute. Qed.

(** *** C9 *)

(** C9, refuted as stated: a first name that is a number makes name
    resolution raise; and with no first or last name, a blank account name
    and an email, the player is the empty string, where the chain of the
    specification gives the email. *)
Lemma name_resolution_fails_or_is_blank :
  resolve_name numbered_name_user = Raise AttributeError ∧
  (rows <- user_rows mar10 PNone (PDict blank_name_user) ;;
   Ok (player <$> rows)) = Ok [""] ∧
  spec_display_name (user_object blank_name_user) = "bob@example.com".
Proof. by vm_compute. Qed.

Lemma display_name_chain_witness :
  user_usable no_paid_share_user ∧
  field_usable (user_object no_paid_share_user) "first_name" ∧
  field_usable (user_object no_paid_share_user) "last_name" ∧
  fallback_not_blank (user_object no_paid_share_user) "name" ∧
  fallback_not_blank (user_object no_paid_share_user) "email" ∧
  ∃ name, resolve_name no_paid_share_user = Ok name ∧
          display_name name = spec_display_name (user_object no_paid_share_user).
Proof.
  assert (user_usable no_paid_share_user) as Hu.
  { unfold user_usable.
    replace (no_paid_share_user !! "user")
      with (Some (PDict (<["first_name" := PStr "A"]> ∅))) by (by vm_compute).
    right. eauto. }
  assert (field_usable (user_object no_paid_share_user) "first_name") as Hf.
  { unfold field_usable.
    replace (user_object no_paid_share_user !! "first_name")
      with (Some (PStr "A")) by (by vm_compute).
    right. eauto. }
  assert (field_usable (user_object no_paid_share_user) "last_name") as Hl.
  { unfold field_usable.
    by replace (user_object no_paid_share_user !! "last_name")
      with (@None pyval) by (by vm_compute). }
  assert (fallback_not_blank (user_object no_paid_share_user) "name") as Hname.
  { intros Ht. vm_compute in Ht. discriminate Ht. }
  assert (fallback_not_blank (user_object no_paid_share_user) "email") as Hemail.
  { intros Ht. vm_compute in Ht. discriminate Ht. }
  split; [exact Hu|]. split; [exact Hf|]. split; [exact Hl|].
  split; [exact Hname|]. split; [exact Hemail|].
  exact (display_name_chain no_paid_share_user Hu Hf Hl Hname Hemail).
Defined.

Example display_name_of_A :
  spec_display_name (user_object no_paid_share_user) = "A".
Proof. by vm_compute. Qed.

End Scenario.

(** * Further properties of the transform *)

(** An expense that only says it settles balances: no date, no users. *)
Definition settle_up : dict := <["description" := PStr "Settle all balances"]> ∅.

(** The scenario's expense, dated a year earlier. *)
Definition last_year_night : dict :=
  <["date" := PStr "2024-03-10T20:00:00Z"]> poker_night.

(** The scenario's expense without its [date] key. *)
Definition dateless_night : dict := delete "date" poker_night.

(** The participations an expense lists. *)
Definition listed_users (exp : dict) : list pyval :=
  match exp !! "users" with
  | Some (PList us) => us
  | _ => []
  end.

Section TransformFacts.
Context `{Externals}.

(** What one participation appends: at most one row, with the date and
    description it was given, a trimmed player and a non-zero amount. *)
Lemma user_rows_shape (dt : datetime) (desc : pyval) (u : pyval) (rows : list row) :
  user_rows dt desc u = Ok rows →
  length rows ≤ 1 ∧
  Forall (λ r, date r = dt ∧ expense r = desc ∧ strip (player r) = player r) rows.
Proof.
  unfold user_rows.
  destruct (as_dict u) as [d|]; simpl; [|done].
  destruct (resolve_name d) as [name|]; simpl; [|done].
  destruct (share d "paid_share") as [p|]; simpl; [|done].
  destruct (share d "owed_share") as [o|]; simpl; [|done].
  case_bool_decide; intros [= <-]; simpl.
  - split; [lia|]. repeat constructor. simpl. apply strip_idem.
  - split; [lia | constructor].
Qed.

Lemma users_loop_shape (dt : datetime) (desc : pyval) (us : list pyval)
    (rows : list row) :
  users_loop dt desc us = Ok rows →
  length rows ≤ length us ∧
  Forall (λ r, date r = dt ∧ expense r = desc ∧ strip (player r) = player r) rows.
Proof.
  revert rows. induction us as [|u us IH]; intros rows; simpl.
  - intros [= <-]. split; [done | constructor].
  - destruct (user_rows dt desc u) as [r|] eqn:Hu; simpl; [|done].
    destruct (users_loop dt desc us) as [rs|]; simpl; [|done].
    intros [= <-]. destruct (user_rows_shape _ _ _ _ Hu) as [Hlen Hall].
    destruct (IH rs eq_refl) as [Hlen' Hall'].
    rewrite length_app. split; [lia|]. by apply Forall_app.
Qed.

(** Iterating over a string or over the keys of a dict hands strings to
    the loop body, whose [u.get] raises: the loop succeeds on none. *)
Lemma users_loop_strings (dt : datetime) (desc : pyval) (us : list pyval)
    (rows : list row) :
  Forall (λ u, ∃ s, u = PStr s) us →
  users_loop dt desc us = Ok rows → us = [].
Proof.
  destruct us as [|u us]; [done|].
  intros Hall. apply Forall_cons_1 in Hall as [[s ->] _]. simpl. done.
Qed.

Lemma py_iter_listed (exp : dict) (dt : datetime) (desc : pyval)
    (us : list pyval) (rows : list row) :
  py_iter (dict_get_default exp "users" (PList [])) = Ok us →
  users_loop dt desc us = Ok rows →
  length us ≤ length (listed_users exp).
Proof.
  unfold dict_get_default, listed_users.
  destruct (exp !! "users") as [v|]; simpl; [|by intros [= <-]].
  destruct v as [| | | |s|l|d]; simpl; try done.
  - intros [= <-] Hloop. apply users_loop_strings in Hloop as Hnil.
    + apply fmap_nil_inv in Hnil. by rewrite Hnil.
    + apply Forall_fmap, Forall_true. intros c. simpl. eauto.
  - by intros [= <-].
  - intros [= <-] Hloop. apply users_loop_strings in Hloop as Hnil.
    + by rewrite Hnil.
    + apply Forall_fmap, Forall_true. intros k. simpl. eauto.
Qed.

(** What one expense appends: at most one row for each participation it
    lists, and rows that all carry its parsed date, which is of the target
    year, its raw description and a trimmed player. *)
Lemma expense_rows_shape (exp : dict) (rows : list row) :
  expense_rows exp = Ok rows →
  length rows ≤ length (listed_users exp) ∧
  Forall (λ r, year (date r) = TARGET_YEAR ∧
               (∃ s, exp !! "date" = Some (PStr s) ∧
                     dateparser_parse s = Some (date r)) ∧
               expense r = dict_get_default exp "description" (PStr "") ∧
               strip (player r) = player r) rows.
Proof.
  unfold expense_rows, dict_index.
  destruct (should_exclude_expense exp) as [[]|]; simpl; try done.
  { intros [= <-]. split; [simpl; lia | constructor]. }
  destruct (exp !! "date") as [d|] eqn:Hd; simpl; [|done].
  destruct d as [| | | |s| |]; simpl; try done.
  destruct (dateparser_parse s) as [dt|] eqn:Hs; simpl; [|done].
  case_bool_decide as Hy.
  { intros [= <-]. split; [simpl; lia | constructor]. }
  destruct (py_iter _) as [us|] eqn:Hiter; simpl; [|done].
  intros Hloop. pose proof (py_iter_listed _ _ _ _ _ Hiter Hloop) as Hus.
  apply users_loop_shape in Hloop as [Hlen Hall]. split; [lia|].
  revert Hall. apply List.Forall_impl. intros r (-> & -> & Hp).
  split; [|split; [|split]]; try done. eauto.
Qed.

Lemma parse_expenses_shape (expenses : list dict) (rows : list row) :
  parse_expenses expenses = Ok rows →
  Forall (λ r, year (date r) = TARGET_YEAR ∧ strip (player r) = player r) rows.
Proof.
  revert rows. induction expenses as [|exp rest IH]; intros rows; simpl.
  - intros [= <-]. constructor.
  - destruct (expense_rows exp) as [r|] eqn:He; simpl; [|done].
    destruct (parse_expenses rest) as [rs|]; simpl; [|done].
    intros [= <-]. apply Forall_app. split; [|by apply IH].
    apply expense_rows_shape in He as [_ He]. revert He.
    apply List.Forall_impl. tauto.
Qed.

(** An expense that appends nothing can be taken out of the input. *)
Lemma parse_expenses_skip (before after : list dict) (exp : dict) :
  expense_rows exp = Ok [] →
  parse_expenses (before ++ exp :: after) = parse_expenses (before ++ after).
Proof.
  intros He. rewrite !parse_expenses_app. simpl. rewrite He. simpl.
  destruct (parse_expenses before) as [r1|]; simpl; [|done].
  by destruct (parse_expenses after).
Qed.

(** X1: every row [parse_expenses] returns is dated in the target year. *)
Theorem rows_are_of_target_year (expenses : list dict) (rows : list row) :
  parse_expenses expenses = Ok rows →
  Forall (λ r, year (date r) = TARGET_YEAR) rows.
Proof.
  intros Hp%parse_expenses_shape. revert Hp. apply List.Forall_impl. tauto.
Qed.

(** X2: the player of every row [parse_expenses] returns is trimmed:
    stripping it again changes nothing. *)
Theorem rows_have_trimmed_players (expenses : list dict) (rows : list row) :
  parse_expenses expenses = Ok rows →
  Forall (λ r, strip (player r) = player r) rows.
Proof.
  intros Hp%parse_expenses_shape. revert Hp. apply List.Forall_impl. tauto.
Qed.

(** X3: a record the filter excludes changes nothing: the result is that
    of the input without it, whatever its date and users are. *)
Theorem excluded_record_is_transparent (before after : list dict) (exp : dict) :
  should_exclude_expense exp = Ok true →
  parse_expenses (before ++ exp :: after) = parse_expenses (before ++ after).
Proof. intros Hx. by apply parse_expenses_skip, expense_rows_excluded. Qed.

(** X4: a kept record dated in another year changes nothing either: its
    users are never looked at. *)
Theorem other_year_record_is_transparent (before after : list dict)
    (exp : dict) (s : string) (dt : datetime) :
  should_exclude_expense exp = Ok false →
  exp !! "date" = Some (PStr s) →
  dateparser_parse s = Some dt →
  year dt ≠ TARGET_YEAR →
  parse_expenses (before ++ exp :: after) = parse_expenses (before ++ after).
Proof.
  intros Hx Hd Hs Hy. apply parse_expenses_skip.
  unfold expense_rows, dict_index. rewrite Hx, Hd. simpl. rewrite Hs. simpl.
  by rewrite bool_decide_true.
Qed.

(** X5: a kept record without a [date] key ends the call with [KeyError],
    and one whose date is not a string with [TypeError]. *)
Theorem missing_date_aborts (before after : list dict) (exp : dict)
    (rows : list row) :
  parse_expenses before = Ok rows →
  should_exclude_expense exp = Ok false →
  (exp !! "date" = None →
   parse_expenses (before ++ exp :: after) = Raise KeyError) ∧
  (∀ v, exp !! "date" = Some v → (∀ s, v ≠ PStr s) →
        parse_expenses (before ++ exp :: after) = Raise TypeError).
Proof.
  intros Hb Hx. split.
  - intros Hd. rewrite parse_expenses_app, Hb. simpl.
    unfold expense_rows, dict_index. by rewrite Hx, Hd.
  - intros v Hd Hv. rewrite parse_expenses_app, Hb. simpl.
    unfold expense_rows, dict_index. rewrite Hx, Hd. simpl.
    destruct v; try done. by destruct (Hv s).
Qed.

(** X6: the rows of a concatenated input are the rows of its parts, in
    that order. *)
Theorem parse_expenses_concat (l1 l2 : list dict) (r1 r2 : list row) :
  parse_expenses l1 = Ok r1 →
  parse_expenses l2 = Ok r2 →
  parse_expenses (l1 ++ l2) = Ok (r1 ++ r2).
Proof. intros H1 H2. by rewrite parse_expenses_app, H1, H2. Qed.

(** X7: an expense yields at most one row for each participation it lists;
    its rows all carry its parsed date and its description as given. *)
Theorem expense_rows_per_participation (exp : dict) (rows : list row) :
  expense_rows exp = Ok rows →
  length rows ≤ length (listed_users exp) ∧
  Forall (λ r, (∃ s, exp !! "date" = Some (PStr s) ∧
                     dateparser_parse s = Some (date r)) ∧
               expense r = dict_get_default exp "description" (PStr "")) rows.
Proof.
  intros [Hlen Hall]%expense_rows_shape. split; [done|].
  revert Hall. apply List.Forall_impl. tauto.
Qed.

End TransformFacts.

(** * Further properties of the filter *)

Lemma lower_char_idem (c : ascii) : lower_char (lower_char c) = lower_char c.
Proof. destruct c as [[] [] [] [] [] [] [] []]; by vm_compute. Qed.

Lemma py_isspace_lower_char (c : ascii) : py_isspace (lower_char c) = py_isspace c.
Proof. destruct c as [[] [] [] [] [] [] [] []]; by vm_compute. Qed.

Lemma lower_idem (s : string) : lower (lower s) = lower s.
Proof.
  induction s as [|c s IH]; [done|]. simpl. by rewrite lower_char_idem, IH.
Qed.

Lemma lstrip_lower (s : string) : lstrip (lower s) = lower (lstrip s).
Proof.
  induction s as [|c s IH]; [done|]. simpl. rewrite py_isspace_lower_char.
  by destruct (py_isspace c).
Qed.

Lemma rstrip_lower (s : string) : rstrip (lower s) = lower (rstrip s).
Proof.
  induction s as [|c s IH]; [done|]. simpl. rewrite IH, py_isspace_lower_char.
  destruct (rstrip s); simpl; [by destruct (py_isspace c) | done].
Qed.

Lemma strip_lower (s : string) : strip (lower s) = lower (strip s).
Proof. unfold strip. by rewrite lstrip_lower, rstrip_lower. Qed.

Lemma should_exclude_expense_text (exp : dict) (s : string) :
  should_exclude_expense (<["description" := PStr s]> exp) =
    Ok (keyword_loop EXCLUDE_DESCRIPTION_KEYWORDS (lower (strip s))
        || is_True (dict_get exp "payment")).
Proof.
  rewrite should_exclude_expense_usable.
  - unfold description_text, field_text, dict_get.
    by rewrite lookup_insert_eq, lookup_insert_ne.
  - unfold description_usable, field_usable. rewrite lookup_insert_eq.
    right. eauto.
Qed.

(** X8: the filter does not see the letter case of a description nor the
    white space around it: lower-casing or trimming the description of a
    record leaves its verdict unchanged. *)
Theorem filter_ignores_case_and_padding (exp : dict) (s : string) :
  should_exclude_expense (<["description" := PStr (lower s)]> exp)
  = should_exclude_expense (<["description" := PStr s]> exp) ∧
  should_exclude_expense (<["description" := PStr (strip s)]> exp)
  = should_exclude_expense (<["description" := PStr s]> exp).
Proof.
  rewrite !should_exclude_expense_text.
  by rewrite strip_lower, lower_idem, strip_idem.
Qed.

(** * Further properties of the aggregation *)













(** *** Weekly winners *)










(** *** Week labels *)

Lemma month_abbr_three (m : Z) :
  (1 ≤ m ≤ 12)%Z →
  ∃ a b c, month_abbr m = String a (String b (String c EmptyString)).
Proof.
  intros Hm.
  assert (m = 1 ∨ m = 2 ∨ m = 3 ∨ m = 4 ∨ m = 5 ∨ m = 6 ∨ m = 7 ∨ m = 8 ∨
          m = 9 ∨ m = 10 ∨ m = 11 ∨ m = 12)%Z as Hcases by lia.
  repeat destruct Hcases as [->|Hcases]; try subst m; simpl; eauto.
Qed.

(** The month number an abbreviation stands for. *)
Definition month_of_abbr (s : string) : Z :=
  if bool_decide (s = "Jan") then 1 else if bool_decide (s = "Feb") then 2
  else if bool_decide (s = "Mar") then 3 else if bool_decide (s = "Apr") then 4
  else if bool_decide (s = "May") then 5 else if bool_decide (s = "Jun") then 6
  else if bool_decide (s = "Jul") then 7 else if bool_decide (s = "Aug") then 8
  else if bool_decide (s = "Sep") then 9 else if bool_decide (s = "Oct") then 10
  else if bool_decide (s = "Nov") then 11 else if bool_decide (s = "Dec") then 12
  else 0.

Lemma month_of_abbr_month_abbr (m : Z) :
  (1 ≤ m ≤ 12)%Z → month_of_abbr (month_abbr m) = m.
Proof.
  intros Hm.
  assert (m = 1 ∨ m = 2 ∨ m = 3 ∨ m = 4 ∨ m = 5 ∨ m = 6 ∨ m = 7 ∨ m = 8 ∨
          m = 9 ∨ m = 10 ∨ m = 11 ∨ m = 12)%Z as Hcases by lia.
  repeat destruct Hcases as [->|Hcases]; try subst m; by vm_compute.
Qed.

(** X16: for dates with a month of 1..12, two rows get the same week label
    exactly when they have the same month and the same week of the month
    (the year plays no part). *)
Theorem week_label_identifies_month_and_week (r1 r2 : row) :
  (1 ≤ month (date r1) ≤ 12)%Z →
  (1 ≤ month (date r2) ≤ 12)%Z →
  week_label (week_keys r1) = week_label (week_keys r2) ↔
  month (date r1) = month (date r2) ∧
  week_of_month (week_keys r1) = week_of_month (week_keys r2).
Proof.
  intros H1 H2. unfold week_keys. simpl. split.
  - intros Hlabel.
    destruct (month_abbr_three _ H1) as (a1 & b1 & c1 & Hm1).
    destruct (month_abbr_three _ H2) as (a2 & b2 & c2 & Hm2).
    rewrite Hm1, Hm2 in Hlabel. injection Hlabel as -> -> -> Hweek.
    split.
    + rewrite <- (month_of_abbr_month_abbr _ H1), <- (month_of_abbr_month_abbr _ H2).
      by rewrite Hm1, Hm2.
    + by apply (inj pretty).
  - intros [-> ->]. done.
Qed.

(** * SPLITWISE API *)

(** What one round of [requests.get(...)], [raise_for_status()] and
    [.json()] gives: the request failed (any of the three raised), or the
    decoded body. *)
Inductive reply : Type :=
| RequestFailed
| Body (v : pyval).

(** How a call of [fetch_group_expenses] stands after a number of
    requests: it returned, a request failed, the loop body raised, or the
    loop is still running. *)
Inductive fetched : Type :=
| Fetched (expenses : list pyval)
| FetchFailed
| FetchRaised (e : exn)
| StillFetching.

Section Fetch.

(** The remote service: group id, limit and offset to the reply. *)
Context (get_expenses : Z → nat → nat → reply).

(** The [while True] loop, cut after [requests] requests; [limit] is 100. *)
Fixpoint fetch_loop (requests : nat) (group_id : Z) (offset : nat)
    (expenses : list pyval) : fetched :=
  match requests with
  | 0 => StillFetching
  | S requests' =>
      match get_expenses group_id 100 offset with
      | RequestFailed => FetchFailed
      | Body v =>
          match as_dict v with
          | Raise e => FetchRaised e
          | Ok d =>
              let data := dict_get_default d "expenses" (PList []) in
              if truthy data then
                match py_iter data with
                | Raise e => FetchRaised e
                | Ok items =>
                    fetch_loop requests' group_id (offset + 100)
                      (expenses ++ items)
                end
              else Fetched expenses
          end
      end
  end.

Definition fetch_group_expenses (requests : nat) (group_id : Z) : fetched :=
  fetch_loop requests group_id 0 [].

(** The reply is a page: a body whose [expenses] is the list [items]. *)
Definition page_reply (r : reply) (items : list pyval) : Prop :=
  ∃ d, r = Body (PDict d) ∧ d !! "expenses" = Some (PList items).

(** The reply ends the loop: a body whose [expenses] is absent or falsy. *)
Definition last_reply (r : reply) : Prop :=
  ∃ d, r = Body (PDict d) ∧
       truthy (dict_get_default d "expenses" (PList [])) = false.

(** The requests at offsets 0, 100, 200, ... are answered by the pages
    [pages], none of them empty. *)
Definition served (group_id : Z) (offset : nat) (pages : list (list pyval)) : Prop :=
  ∀ i items, pages !! i = Some items →
    items ≠ [] ∧ page_reply (get_expenses group_id 100 (offset + 100 * i)) items.

Lemma fetch_loop_step (requests : nat) (group_id : Z) (offset : nat)
    (acc : list pyval) :
  fetch_loop (S requests) group_id offset acc =
    match get_expenses group_id 100 offset with
    | RequestFailed => FetchFailed
    | Body v =>
        match as_dict v with
        | Raise e => FetchRaised e
        | Ok d =>
            if truthy (dict_get_default d "expenses" (PList [])) then
              match py_iter (dict_get_default d "expenses" (PList [])) with
              | Raise e => FetchRaised e
              | Ok items =>
                  fetch_loop requests group_id (offset + 100) (acc ++ items)
              end
            else Fetched acc
        end
    end.
Proof. done. Qed.

Lemma fetch_loop_pages (group_id : Z) (pages : list (list pyval))
    (requests offset : nat) (acc : list pyval) :
  served group_id offset pages →
  fetch_loop (length pages + requests) group_id offset acc
  = fetch_loop requests group_id (offset + 100 * length pages)
      (acc ++ concat pages).
Proof.
  revert offset acc. induction pages as [|page pages IH]; intros offset acc Hs.
  - simpl. by rewrite Nat.add_0_r, app_nil_r.
  - destruct (Hs 0 page eq_refl) as [Hne (d & Hr & Hd)].
    rewrite Nat.mul_0_r, Nat.add_0_r in Hr.
    simpl length. simpl fetch_loop. rewrite Hr. simpl.
    unfold dict_get_default. rewrite Hd. simpl.
    destruct page as [|u page]; [done|].
    rewrite IH.
    + f_equal; [lia|]. simpl concat. by rewrite (assoc_L (++)).
    + intros i items Hi. destruct (Hs (S i) items Hi) as [Hne' Hp].
      split; [done|]. by replace (offset + 100 + 100 * i)
                          with (offset + 100 * S i) by lia.
Qed.

(** X18: when the service answers the first requests with non-empty pages
    and the next one with a body whose [expenses] is absent or empty, the
    call returns the pages concatenated, in order, after one request more
    than there are pages. *)
Theorem fetch_returns_all_pages (group_id : Z) (pages : list (list pyval))
    (requests : nat) :
  served group_id 0 pages →
  last_reply (get_expenses group_id 100 (100 * length pages)) →
  length pages < requests →
  fetch_group_expenses requests group_id = Fetched (concat pages).
Proof.
  intros Hs (d & Hr & Hd) Hlen. unfold fetch_group_expenses.
  replace requests with (length pages + S (requests - S (length pages))) by lia.
  rewrite (fetch_loop_pages _ _ _ _ _ Hs), Nat.add_0_l, fetch_loop_step, Hr.
  simpl as_dict. cbv iota. by rewrite Hd.
Qed.

(** X19: a request that fails ends the call with that failure, however
    many pages were collected before: none of them is returned. *)
Theorem fetch_fails_with_the_request (group_id : Z) (pages : list (list pyval))
    (requests : nat) :
  served group_id 0 pages →
  get_expenses group_id 100 (100 * length pages) = RequestFailed →
  length pages < requests →
  fetch_group_expenses requests group_id = FetchFailed.
Proof.
  intros Hs Hr Hlen. unfold fetch_group_expenses.
  replace requests with (length pages + S (requests - S (length pages))) by lia.
  by rewrite (fetch_loop_pages _ _ _ _ _ Hs), Nat.add_0_l, fetch_loop_step, Hr.
Qed.

(** X20: the loop has no other way out: against a service that answers
    every offset with a non-empty page, the call never returns. *)
Theorem fetch_never_returns_on_endless_pages (group_id : Z) (requests : nat) :
  (∀ offset, ∃ items, items ≠ [] ∧
     page_reply (get_expenses group_id 100 offset) items) →
  fetch_group_expenses requests group_id = StillFetching.
Proof.
  intros Hall. unfold fetch_group_expenses. generalize 0 (@nil pyval).
  induction requests as [|n IH]; intros offset acc; [done|].
  destruct (Hall offset) as (items & Hne & d & Hr & Hd).
  simpl. rewrite Hr. simpl. unfold dict_get_default. rewrite Hd. simpl.
  destruct items; [done|]. apply IH.
Qed.

End Fetch.

(** A service that holds the list [every] and answers an offset with the
    slice [every[offset : offset + limit]]. *)
Definition paging_service (every : list pyval) (group_id : Z)
    (limit offset : nat) : reply :=
  Body (PDict (<["expenses" := PList (take limit (drop offset every))]> ∅)).

Lemma fetch_loop_paging (every : list pyval) (group_id : Z)
    (requests offset : nat) :
  length every - offset + 100 ≤ 100 * requests →
  fetch_loop (paging_service every) requests group_id offset (take offset every)
  = Fetched every.
Proof.
  revert offset. induction requests as [|n IH]; intros offset Hn; [lia|].
  - simpl. unfold dict_get_default. rewrite lookup_insert_eq. simpl.
    destruct (take 100 (drop offset every)) as [|u page] eqn:Hpage.
    + f_equal. apply take_ge.
      apply (f_equal length) in Hpage. rewrite length_take, length_drop in Hpage.
      change (length (@nil pyval)) with 0 in Hpage. lia.
    + rewrite <- Hpage, take_take_drop. apply IH.
      apply (f_equal length) in Hpage. rewrite length_take, length_drop in Hpage.
      change (length (u :: page)) with (S (length page)) in Hpage. lia.
Qed.

(** X21: against a service that pages through a list of expenses, the call
    returns the whole list, in order, once it may make one request more
    than the list has pages of 100. *)
Theorem fetch_collects_a_paged_list (every : list pyval) (group_id : Z)
    (requests : nat) :
  length every + 100 ≤ 100 * requests →
  fetch_group_expenses (paging_service every) requests group_id = Fetched every.
Proof.
  intros Hn. unfold fetch_group_expenses.
  change (@nil pyval) with (take 0 every). apply fetch_loop_paging. lia.
Qed.

(** * CONFIG and MAIN *)

(** [os.getenv("SPLITWISE_API_KEY") or <the key written in the script>]:
    [env] is the variable ([None] when unset), [written] the literal. *)
Definition SPLITWISE_API_KEY (env : option string) (written : string) : string :=
  match env with
  | Some s => if bool_decide (s = "") then written else s
  | None => written
  end.

(** The test that opens [main]: [True] when it raises [RuntimeError]. *)
Definition key_is_refused (key : string) : bool :=
  bool_decide (key = "") || bool_decide (key = "PASTE_YOUR_KEY_HERE").

(** X22: with a key written in the script that is neither empty nor the
    placeholder, [main] refuses to start only when the environment variable
    holds the placeholder text itself; an unset or empty variable falls
    back to the written key and passes. *)
Theorem key_guard_fires_only_on_placeholder (env : option string)
    (written : string) :
  written ≠ "" →
  written ≠ "PASTE_YOUR_KEY_HERE" →
  key_is_refused (SPLITWISE_API_KEY env written) = true ↔
  env = Some "PASTE_YOUR_KEY_HERE".
Proof.
  intros He Hp. unfold key_is_refused, SPLITWISE_API_KEY.
  rewrite orb_true_iff, !bool_decide_eq_true.
  destruct env as [s|].
  - case_bool_decide as Hs.
    + subst s. split; [intros [?|?]; done | done].
    + split.
      * intros [?|Hs']; [done | by rewrite Hs'].
      * intros Henv. injection Henv as Hs'. by right.
  - split; [intros [?|?]; done | done].
Qed.

Section MainFacts.
Context `{Externals}.

Lemma parse_expenses_all_skipped (expenses : list dict) :
  Forall (λ exp, expense_rows exp = Ok []) expenses →
  parse_expenses expenses = Ok [].
Proof.
  induction 1 as [|exp rest He _ IH]; [done|]. simpl. by rewrite He, IH.
Qed.

(** X23: when the filter excludes every record, [main] finds no qualifying
    expense and computes no table, whatever else the records hold. *)
Theorem main_has_nothing_when_all_excluded (expenses : list dict) :
  Forall (λ exp, should_exclude_expense exp = Ok true) expenses →
  main_tables expenses = Ok None.
Proof.
  intros Hall. unfold main_tables. rewrite parse_expenses_all_skipped; [done|].
  revert Hall. apply List.Forall_impl. apply expense_rows_excluded.
Qed.

End MainFacts.

(** * The further properties on concrete data *)

Definition row_of_A : row :=
  {| date := mar10; player := "A"; winnings := Qc_of_Z 75;
     expense := PStr "Poker Night" |}.

Definition row_of_B : row :=
  {| date := mar10; player := "B"; winnings := Qc_of_Z (-75);
     expense := PStr "Poker Night" |}.

(** A service with a page of two, a page of one, then nothing. *)
Definition two_page_service (group_id : Z) (limit offset : nat) : reply :=
  if bool_decide (offset = 0)
  then Body (PDict (<["expenses" := PList [PInt 1; PInt 2]]> ∅))
  else if bool_decide (offset = 100)
  then Body (PDict (<["expenses" := PList [PInt 3]]> ∅))
  else Body (PDict ∅).

(** A service that answers once and then fails. *)
Definition failing_service (group_id : Z) (limit offset : nat) : reply :=
  if bool_decide (offset = 0)
  then Body (PDict (<["expenses" := PList [PInt 1; PInt 2]]> ∅))
  else RequestFailed.

(** A service that answers every request with the same page. *)
Definition endless_service (group_id : Z) (limit offset : nat) : reply :=
  Body (PDict (<["expenses" := PList [PNone]]> ∅)).

Section FurtherScenario.
#[local] Existing Instance reference_externals.

Lemma poker_night_expense_rows : expense_rows poker_night = Ok poker_night_rows.
Proof.
  vm_compute. f_equal.
  f_equal; [by apply row_winnings_eq|].
  f_equal. by apply row_winnings_eq.
Qed.

Lemma rows_are_of_target_year_witness :
  parse_expenses [poker_night] = Ok poker_night_rows ∧
  Forall (λ r, year (date r) = TARGET_YEAR) poker_night_rows.
Proof.
  split; [exact poker_night_parses|].
  exact (rows_are_of_target_year [poker_night] poker_night_rows
           poker_night_parses).
Defined.

Lemma rows_have_trimmed_players_witness :
  parse_expenses [poker_night] = Ok poker_night_rows ∧
  Forall (λ r, strip (player r) = player r) poker_night_rows.
Proof.
  split; [exact poker_night_parses|].
  exact (rows_have_trimmed_players [poker_night] poker_night_rows
           poker_night_parses).
Defined.

Lemma excluded_record_is_transparent_witness :
  should_exclude_expense settle_up = Ok true ∧
  parse_expenses ([poker_night] ++ settle_up :: [])
  = parse_expenses ([poker_night] ++ []).
Proof.
  assert (should_exclude_expense settle_up = Ok true) as Hx by (by vm_compute).
  split; [exact Hx|].
  exact (excluded_record_is_transparent [poker_night] [] settle_up Hx).
Defined.

Lemma other_year_record_is_transparent_witness :
  should_exclude_expense last_year_night = Ok false ∧
  last_year_night !! "date" = Some (PStr "2024-03-10T20:00:00Z") ∧
  dateparser_parse "2024-03-10T20:00:00Z"
    = Some {| year := 2024; month := 3; day := 10 |} ∧
  year {| year := 2024; month := 3; day := 10 |} ≠ TARGET_YEAR ∧
  parse_expenses ([poker_night] ++ last_year_night :: [])
  = parse_expenses ([poker_night] ++ []).
Proof.
  assert (should_exclude_expense last_year_night = Ok false) as Hx
    by (by vm_compute).
  assert (last_year_night !! "date" = Some (PStr "2024-03-10T20:00:00Z")) as Hd
    by (by vm_compute).
  assert (dateparser_parse "2024-03-10T20:00:00Z"
          = Some {| year := 2024; month := 3; day := 10 |}) as Hs
    by (by vm_compute).
  assert (year {| year := 2024; month := 3; day := 10 |} ≠ TARGET_YEAR) as Hy
    by (by vm_compute).
  split; [exact Hx|]. split; [exact Hd|]. split; [exact Hs|]. split; [exact Hy|].
  exact (other_year_record_is_transparent [poker_night] [] last_year_night
           "2024-03-10T20:00:00Z" {| year := 2024; month := 3; day := 10 |}
           Hx Hd Hs Hy).
Defined.

Lemma missing_date_aborts_witness :
  parse_expenses [poker_night] = Ok poker_night_rows ∧
  should_exclude_expense dateless_night = Ok false ∧
  dateless_night !! "date" = None ∧
  parse_expenses ([poker_night] ++ dateless_night :: []) = Raise KeyError.
Proof.
  assert (should_exclude_expense dateless_night = Ok false) as Hx
    by (by vm_compute).
  assert (dateless_night !! "date" = None) as Hd by (by vm_compute).
  split; [exact poker_night_parses|]. split; [exact Hx|]. split; [exact Hd|].
  exact (proj1 (missing_date_aborts [poker_night] [] dateless_night
                  poker_night_rows poker_night_parses Hx) Hd).
Defined.

Lemma parse_expenses_concat_witness :
  parse_expenses [poker_night] = Ok poker_night_rows ∧
  parse_expenses ([poker_night] ++ [poker_night])
  = Ok (poker_night_rows ++ poker_night_rows).
Proof.
  split; [exact poker_night_parses|].
  exact (parse_expenses_concat [poker_night] [poker_night] poker_night_rows
           poker_night_rows poker_night_parses poker_night_parses).
Defined.

Lemma expense_rows_per_participation_witness :
  expense_rows poker_night = Ok poker_night_rows ∧
  length poker_night_rows ≤ length (listed_users poker_night) ∧
  Forall (λ r, (∃ s, poker_night !! "date" = Some (PStr s) ∧
                     dateparser_parse s = Some (date r)) ∧
               expense r = dict_get_default poker_night "description" (PStr ""))
         poker_night_rows.
Proof.
  split; [exact poker_night_expense_rows|].
  exact (expense_rows_per_participation poker_night poker_night_rows
           poker_night_expense_rows).
Defined.

Lemma week_label_identifies_month_and_week_witness :
  (1 ≤ month (date row_of_A) ≤ 12)%Z ∧
  (1 ≤ month (date row_of_B) ≤ 12)%Z ∧
  (week_label (week_keys row_of_A) = week_label (week_keys row_of_B) ↔
   month (date row_of_A) = month (date row_of_B) ∧
   week_of_month (week_keys row_of_A) = week_of_month (week_keys row_of_B)).
Proof.
  assert (1 ≤ month (date row_of_A) ≤ 12)%Z as HA by (simpl; lia).
  assert (1 ≤ month (date row_of_B) ≤ 12)%Z as HB by (simpl; lia).
  split; [exact HA|]. split; [exact HB|].
  exact (week_label_identifies_month_and_week row_of_A row_of_B HA HB).
Defined.

Lemma two_page_service_served :
  served two_page_service 7 0 [[PInt 1; PInt 2]; [PInt 3]].
Proof.
  intros i items Hi. destruct i as [|[|i]]; simpl in Hi; try done.
  - injection Hi as <-. split; [done|]. eexists. split; [reflexivity|].
    apply lookup_insert_eq.
  - injection Hi as <-. split; [done|]. eexists. split; [reflexivity|].
    apply lookup_insert_eq.
Qed.

Lemma fetch_returns_all_pages_witness :
  served two_page_service 7 0 [[PInt 1; PInt 2]; [PInt 3]] ∧
  last_reply (two_page_service 7 100 (100 * 2)) ∧
  2 < 3 ∧
  fetch_group_expenses two_page_service 3 7 = Fetched [PInt 1; PInt 2; PInt 3].
Proof.
  assert (last_reply (two_page_service 7 100 (100 * 2))) as Hl.
  { exists ∅. split; [reflexivity|]. reflexivity. }
  assert (2 < 3) as Hn by lia.
  split; [exact two_page_service_served|]. split; [exact Hl|]. split; [exact Hn|].
  exact (fetch_returns_all_pages two_page_service 7
           [[PInt 1; PInt 2]; [PInt 3]] 3 two_page_service_served Hl Hn).
Defined.

Lemma failing_service_served :
  served failing_service 7 0 [[PInt 1; PInt 2]].
Proof.
  intros i items Hi. destruct i as [|i]; simpl in Hi; try done.
  injection Hi as <-. split; [done|]. eexists. split; [reflexivity|].
  apply lookup_insert_eq.
Qed.

Lemma fetch_fails_with_the_request_witness :
  served failing_service 7 0 [[PInt 1; PInt 2]] ∧
  failing_service 7 100 (100 * 1) = RequestFailed ∧
  1 < 2 ∧
  fetch_group_expenses failing_service 2 7 = FetchFailed.
Proof.
  assert (failing_service 7 100 (100 * 1) = RequestFailed) as Hr by reflexivity.
  assert (1 < 2) as Hn by lia.
  split; [exact failing_service_served|]. split; [exact Hr|]. split; [exact Hn|].
  exact (fetch_fails_with_the_request failing_service 7 [[PInt 1; PInt 2]] 2
           failing_service_served Hr Hn).
Defined.

Lemma endless_service_pages (offset : nat) :
  ∃ items, items ≠ [] ∧ page_reply (endless_service 7 100 offset) items.
Proof.
  exists [PNone]. split; [done|]. eexists. split; [reflexivity|].
  apply lookup_insert_eq.
Qed.

Lemma fetch_never_returns_on_endless_pages_witness :
  (∀ offset, ∃ items, items ≠ [] ∧
     page_reply (endless_service 7 100 offset) items) ∧
  fetch_group_expenses endless_service 5 7 = StillFetching.
Proof.
  split; [exact endless_service_pages|].
  exact (fetch_never_returns_on_endless_pages endless_service 7 5
           endless_service_pages).
Defined.

Lemma fetch_collects_a_paged_list_witness :
  length [PInt 1; PInt 2] + 100 ≤ 100 * 2 ∧
  fetch_group_expenses (paging_service [PInt 1; PInt 2]) 2 7
  = Fetched [PInt 1; PInt 2].
Proof.
  assert (length [PInt 1; PInt 2] + 100 ≤ 100 * 2) as Hn
    by (change (length [PInt 1; PInt 2]) with 2; lia).
  split; [exact Hn|].
  exact (fetch_collects_a_paged_list [PInt 1; PInt 2] 7 2 Hn).
Defined.

Lemma key_guard_fires_only_on_placeholder_witness :
  "written-key" ≠ "" ∧
  "written-key" ≠ "PASTE_YOUR_KEY_HERE" ∧
  (key_is_refused (SPLITWISE_API_KEY None "written-key") = true ↔
   @None string = Some "PASTE_YOUR_KEY_HERE").
Proof.
  assert ("written-key" ≠ "") as He by done.
  assert ("written-key" ≠ "PASTE_YOUR_KEY_HERE") as Hp by done.
  split; [exact He|]. split; [exact Hp|].
  exact (key_guard_fires_only_on_placeholder None "written-key" He Hp).
Defined.

Lemma main_has_nothing_when_all_excluded_witness :
  Forall (λ exp, should_exclude_expense exp = Ok true) [settle_up; settle_up] ∧
  main_tables [settle_up; settle_up] = Ok None.
Proof.
  assert (Forall (λ exp, should_exclude_expense exp = Ok true)
            [settle_up; settle_up]) as Hall.
  { repeat constructor; by vm_compute. }
  split; [exact Hall|].
  exact (main_has_nothing_when_all_excluded [settle_up; settle_up] Hall).
Defined.

End FurtherScenario.
